(** * Chat message relay handler: [app/(chat)/api/chat/route.ts]

    A shallow embedding of the request handler of the chat route and of
    the helper functions it defines, together with the properties of the
    handler that the specification states.

    Layout:
    - [JS]      the JavaScript values the handler manipulates: UTF-16
                strings, parsed JSON, [String(...)], [JSON.stringify],
                [trim], [split(/\s+/)], [includes];
    - [Model]   records of the data model, the event trace, and the
                state-and-exception monad in which the handler runs;
    - [Route]   [finishWriter], [makeTitleFromMessage], [POST] (with the
                [execute] and [onFinish] callbacks), and [DELETE];
    - [Drafts]  the two steps in which the sibling drafts of the route
                differ from [route.ts];
    - the vocabulary of the statements, sample requests, and the
      theorems. *)

From Stdlib Require Import List NArith ZArith Bool String Ascii Lia.
From Stdlib Require Import DecimalN DecimalPos.
Import ListNotations.

Set Implicit Arguments.
Set Warnings "-register-all".

(* ================================================================== *)
(** * JavaScript values *)
(* ================================================================== *)

Module JS.

(** A JavaScript string is a sequence of UTF-16 code units; [length] is
    the [.length] of the source. *)
Definition jstr := list N.

(** ASCII literals. *)
Definition u (s : string) : jstr := map N_of_ascii (list_ascii_of_string s).

Fixpoint eqb (a b : jstr) : bool :=
  match a, b with
  | [], [] => true
  | x :: a', y :: b' => N.eqb x y && eqb a' b'
  | _, _ => false
  end.

(** Truthiness of a string: only the empty string is falsy. *)
Definition truthy (s : jstr) : bool :=
  match s with [] => false | _ :: _ => true end.

(** [a || b] on strings. *)
Definition or_else (a b : jstr) : jstr := if truthy a then a else b.

(** White space as matched by the regular expression class [\s] and as
    stripped by [String.prototype.trim]: WhiteSpace and LineTerminator. *)
Definition is_ws (c : N) : bool :=
  ((9 <=? c) && (c <=? 13) || (c =? 32) || (c =? 160) || (c =? 5760)
   || (8192 <=? c) && (c <=? 8202) || (c =? 8232) || (c =? 8233)
   || (c =? 8239) || (c =? 8287) || (c =? 12288) || (c =? 65279))%N.

Fixpoint trimStart (s : jstr) : jstr :=
  match s with
  | c :: r => if is_ws c then trimStart r else s
  | [] => []
  end.

Definition trimEnd (s : jstr) : jstr := rev (trimStart (rev s)).

Definition trim (s : jstr) : jstr := trimEnd (trimStart s).

(** [s.split(/\s+/)]: [cur] is the piece being read (reversed), [in_ws]
    tells that the previous code unit belonged to a separator. *)
Fixpoint split_ws_from (cur : jstr) (in_ws : bool) (s : jstr) : list jstr :=
  match s with
  | [] => [rev cur]
  | c :: r =>
      if is_ws c then
        if in_ws then split_ws_from cur true r
        else rev cur :: split_ws_from [] true r
      else split_ws_from (c :: cur) false r
  end.

Definition split_ws (s : jstr) : list jstr := split_ws_from [] false s.

(** [pieces.join(sep)]. *)
Fixpoint join (sep : jstr) (pieces : list jstr) : jstr :=
  match pieces with
  | [] => []
  | [p] => p
  | p :: rest => p ++ sep ++ join sep rest
  end.

(** [pieces.slice(0, n)]. *)
Definition slice0 {A} (n : nat) (l : list A) : list A := firstn n l.

Fixpoint starts_with (needle s : jstr) : bool :=
  match needle, s with
  | [], _ => true
  | x :: n', y :: s' => N.eqb x y && starts_with n' s'
  | _ :: _, [] => false
  end.

(** [s.includes(needle)]. *)
Fixpoint includes (s needle : jstr) : bool :=
  starts_with needle s
  || match s with
     | [] => false
     | _ :: r => includes r needle
     end.

(** Decimal rendering of a non-negative integer, as a template literal
    renders [res.status]. *)
Fixpoint digits (d : Decimal.uint) : jstr :=
  match d with
  | Decimal.Nil => []
  | Decimal.D0 r => 48%N :: digits r
  | Decimal.D1 r => 49%N :: digits r
  | Decimal.D2 r => 50%N :: digits r
  | Decimal.D3 r => 51%N :: digits r
  | Decimal.D4 r => 52%N :: digits r
  | Decimal.D5 r => 53%N :: digits r
  | Decimal.D6 r => 54%N :: digits r
  | Decimal.D7 r => 55%N :: digits r
  | Decimal.D8 r => 56%N :: digits r
  | Decimal.D9 r => 57%N :: digits r
  end.

Definition decimal (n : N) : jstr := digits (N.to_uint n).

(** ** Parsed JSON

    The value [JSON.parse] (or [request.json()]) produced.  A number
    carries the text [Number.prototype.toString] gives for it and
    whether it is finite (a literal such as [1e999] parses to
    [Infinity]); an object carries its own properties in enumeration
    order, each key once. *)
Inductive json : Type :=
| JNull
| JBool (b : bool)
| JNum (repr : jstr) (finite : bool)
| JStr (s : jstr)
| JArr (items : list json)
| JObj (fields : list (jstr * json)).

Fixpoint lookup (k : jstr) (fields : list (jstr * json)) : option json :=
  match fields with
  | [] => None
  | (k', v) :: rest => if eqb k k' then Some v else lookup k rest
  end.

(** Exceptions raised while a request is handled. *)
Inductive exn : Type :=
| TypeError        (* property access on null, conversion of an object *)
| TransportError   (* [fetch] rejected *)
| BodyError        (* reading a response body rejected *)
| StoreError.      (* a query of the data layer rejected *)

(** [v.k] for a parsed value [v].  Reading a property of [null] throws;
    of the other values only an object has the properties read here
    ([output], [type], [text], ...), the prototypes define none of
    them.  [None] is [undefined]. *)
Definition get_prop (v : json) (k : jstr) : exn + option json :=
  match v with
  | JNull => inl TypeError
  | JObj fields => inr (lookup k fields)
  | _ => inr None
  end.

(** [a ?? b]: [b] is taken when [a] is [undefined] or [null]. *)
Definition nullish (v : option json) : bool :=
  match v with
  | None | Some JNull => true
  | Some _ => false
  end.

(** [String(v)].  An array is joined with commas, [null] items giving
    the empty string; an object gives ["[object Object]"] through
    [Object.prototype.toString], unless an own [toString] property (never
    callable in parsed JSON) hides it, and then the conversion throws. *)
Fixpoint to_String (v : json) : option jstr :=
  match v with
  | JNull => Some (u "null")
  | JBool true => Some (u "true")
  | JBool false => Some (u "false")
  | JNum repr _ => Some repr
  | JStr s => Some s
  | JArr items =>
      (fix items_to_String (l : list json) : option jstr :=
         match l with
         | [] => Some []
         | x :: rest =>
             match (match x with JNull => Some [] | _ => to_String x end) with
             | None => None
             | Some sx =>
                 match rest with
                 | [] => Some sx
                 | _ :: _ =>
                     match items_to_String rest with
                     | None => None
                     | Some sr => Some (sx ++ u "," ++ sr)
                     end
                 end
             end
         end) items
  | JObj fields =>
      match lookup (u "toString") fields with
      | Some _ => None
      | None => Some (u "[object Object]")
      end
  end.

Definition hex_digit (n : N) : N :=
  (if n <? 10 then 48 + n else 87 + n)%N.

(** [\uXXXX] with lower-case digits. *)
Definition unicode_escape (c : N) : jstr :=
  u "\u" ++ [hex_digit (c / 4096 mod 16); hex_digit (c / 256 mod 16);
             hex_digit (c / 16 mod 16); hex_digit (c mod 16)]%N.

Definition is_high_surrogate (c : N) : bool := ((55296 <=? c) && (c <=? 56319))%N.
Definition is_low_surrogate (c : N) : bool := ((56320 <=? c) && (c <=? 57343))%N.

Definition quote_unit (c : N) : jstr :=
  (if c =? 34 then [92; 34] else
   if c =? 92 then [92; 92] else
   if c =? 8 then u "\b" else
   if c =? 9 then u "\t" else
   if c =? 10 then u "\n" else
   if c =? 12 then u "\f" else
   if c =? 13 then u "\r" else
   if c <? 32 then unicode_escape c else [c])%N.

(** The body of a quoted string: a surrogate is copied when it is half
    of a pair and escaped when it stands alone. *)
Fixpoint quote_body (s : jstr) : jstr :=
  match s with
  | [] => []
  | c :: r =>
      if is_high_surrogate c then
        match r with
        | d :: r' =>
            if is_low_surrogate d then c :: d :: quote_body r'
            else unicode_escape c ++ quote_body r
        | [] => unicode_escape c
        end
      else if is_low_surrogate c then unicode_escape c ++ quote_body r
      else quote_unit c ++ quote_body r
  end.

Definition quote (s : jstr) : jstr := [34%N] ++ quote_body s ++ [34%N].

(** [JSON.stringify(v)] of a parsed value, without indentation. *)
Fixpoint stringify (v : json) : jstr :=
  match v with
  | JNull => u "null"
  | JBool true => u "true"
  | JBool false => u "false"
  | JNum repr finite => if finite then repr else u "null"
  | JStr s => quote s
  | JArr items => u "[" ++ join (u ",") (map stringify items) ++ u "]"
  | JObj fields =>
      u "{"
      ++ join (u ",")
           (map (fun kv => quote (fst kv) ++ u ":" ++ stringify (snd kv)) fields)
      ++ u "}"
  end.

End JS.

(* ================================================================== *)
(** * Data model, events and the handler monad *)
(* ================================================================== *)

Module Model.
Import JS.

Inductive Role : Type := RUser | RAssistant | RSystem.
Inductive VisibilityType : Type := Public | Private.
Inductive UserType : Type := guest | regular.

Definition Role_eqb (a b : Role) : bool :=
  match a, b with
  | RUser, RUser | RAssistant, RAssistant | RSystem, RSystem => true
  | _, _ => false
  end.

(** [session.user]. *)
Record User : Type := { user_id : string; user_type : UserType }.

(** An entry of the table [entitlementsByUserType]. *)
Record Entitlements : Type := { maxMessagesPerDay : Z }.

(** [ChatMessage]: a UI message with its ordered content parts. *)
Record ChatMessage : Type :=
  { msg_id : string; msg_role : Role; msg_parts : list json }.

(** [PostRequestBody], the value [postRequestBodySchema.parse] returns. *)
Record PostRequestBody : Type :=
  { body_id : string;
    body_message : ChatMessage;
    selectedChatModel : string;
    selectedVisibilityType : VisibilityType }.

(** A row of the chat table. *)
Record Chat : Type :=
  { chat_id : string; userId : string; title : jstr; visibility : VisibilityType }.

(** A row of the message table. *)
Record DBMessage : Type :=
  { chatId : string;
    message_id : string;
    role : Role;
    parts : list json;
    attachments : list json;
    createdAt : Z }.

(** The chunks [execute] writes to the UI stream. *)
Inductive Chunk : Type :=
| MessageStart (id : string) (r : Role)
| TextDelta (delta : jstr) (id : string)
| MessageEnd (id : string).

(** The JSON body posted to the workflow endpoint. *)
Record WebhookPayload : Type :=
  { p_chatId : string;
    p_model : string;
    p_message : ChatMessage;
    p_history : list ChatMessage;
    p_user : User }.

Record FetchRequest : Type :=
  { url : string; authorization : option string; payload : WebhookPayload }.

(** What [fetch] resolves to.  [res_text] and [res_json] are the results
    of [res.text()] and [res.json()], [None] when the promise rejects. *)
Record WorkflowResponse : Type :=
  { status : N;
    statusText : jstr;
    content_type : option jstr;
    res_text : option jstr;
    res_json : option json }.

(** [res.ok]: the status is in the range 200-299. *)
Definition ok (r : WorkflowResponse) : bool :=
  ((200 <=? status r) && (status r <=? 299))%N.

Inductive FetchOutcome : Type :=
| FetchThrows
| FetchResponds (r : WorkflowResponse).

(** The writer handed to [execute], as far as [finishWriter] probes it:
    which of [end], [close] and [finish] are functions. *)
Record Writer : Type := { has_end : bool; has_close : bool; has_finish : bool }.

(** Mutations and outbound calls, in the order they happen. *)
Inductive Event : Type :=
| EvSaveChat (c : Chat)
| EvSaveMessages (rows : list DBMessage)
| EvDeleteChat (id : string)
| EvFetch (rq : FetchRequest)
| EvWrite (c : Chunk)
| EvEnd
| EvClose
| EvFinish.

(** The state a request runs in: the two tables, the variable
    [assistantFullText] that [execute] assigns and [onFinish] reads, and
    the trace of events. *)
Record St : Type :=
  { chats : list Chat;
    messages : list DBMessage;
    assistantFullText : jstr;
    trace : list Event }.

(** A message the UI stream assembled, as the streaming helper hands it
    to [onFinish]: its id and its parts.  It is the response of the
    assistant (see [createUIMessageStream] below). *)
Record ResponseMessage : Type := { rm_id : string; rm_parts : list json }.

(** What one request receives from its collaborators.  The calls of the
    query layer on the request path are taken to return, as the handler
    does not handle their failure; the failures it handles are those of
    the two writes of [onFinish], the flags [persist_fails] and
    [fallback_fails].  The clock is read as one instant [now] per
    request, and [console] output is left out of the trace. *)
Record Env : Type :=
  { request_body : option PostRequestBody;  (* [None]: json() or parse throws *)
    session_user : option User;             (* [(await auth())?.user] *)
    N8N_WEBHOOK_URL : option string;
    N8N_WEBHOOK_TOKEN : option string;
    now : Z;                                (* [new Date()], milliseconds *)
    fetch_outcome : FetchOutcome;
    writer : Writer;
    msgId_uuid : string;                    (* [generateUUID()] in execute *)
    fallback_uuid : string;                 (* [generateUUID()] in onFinish *)
    finished_messages : list ResponseMessage; (* the messages of the stream *)
    persist_fails : bool;                   (* the write of onFinish rejects *)
    fallback_fails : bool }.                (* so does the write of its catch *)

(** ** State and exceptions *)

Inductive outcome (A : Type) : Type :=
| Return (a : A)
| Throw (e : exn).
Arguments Throw {A} e.

Definition M (A : Type) : Type := St -> outcome A * St.

Definition ret {A} (a : A) : M A := fun s => (Return a, s).

Definition bind {A B} (m : M A) (k : A -> M B) : M B :=
  fun s =>
    match m s with
    | (Return a, s') => k a s'
    | (Throw e, s') => (Throw e, s')
    end.

Definition throw {A} (e : exn) : M A := fun s => (Throw e, s).

(** [try { body } catch { handler }]: what [body] did before it threw
    stays done. *)
Definition try_catch {A} (body : M A) (handler : exn -> M A) : M A :=
  fun s =>
    match body s with
    | (Return a, s') => (Return a, s')
    | (Throw e, s') => handler e s'
    end.

Definition lift {A} (r : exn + A) : M A :=
  match r with
  | inl e => throw e
  | inr a => ret a
  end.

Definition emit (e : Event) : M unit :=
  fun s =>
    (Return tt,
     {| chats := chats s; messages := messages s;
        assistantFullText := assistantFullText s;
        trace := trace s ++ [e] |}).

Definition set_assistantFullText (t : jstr) : M unit :=
  fun s =>
    (Return tt,
     {| chats := chats s; messages := messages s;
        assistantFullText := t; trace := trace s |}).

Definition get_assistantFullText : M jstr :=
  fun s => (Return (assistantFullText s), s).

Declare Scope handler_scope.
Delimit Scope handler_scope with handler.
Notation "x <- m ;; k" := (bind m (fun x => k))
  (at level 61, m at next level, right associativity) : handler_scope.
Notation "m ;; k" := (bind m (fun _ => k))
  (at level 61, right associativity) : handler_scope.

(** ** The query layer ([lib/db/queries]) *)

(** Modelled from the spec: [getChatById] is not among the sources; it
    looks the conversation up by id and returns nothing when absent. *)
Definition getChatById (id : string) : M (option Chat) :=
  fun s => (Return (find (fun c => String.eqb (chat_id c) id) (chats s)), s).

(** Modelled from the spec: [saveChat] is not among the sources; it
    inserts one row in the chat table. *)
Definition saveChat (c : Chat) : M unit :=
  fun s =>
    (Return tt,
     {| chats := chats s ++ [c]; messages := messages s;
        assistantFullText := assistantFullText s;
        trace := trace s ++ [EvSaveChat c] |}).

(** Modelled from the spec: [saveMessages] is not among the sources; it
    appends the rows to the message table. *)
Definition saveMessages (rows : list DBMessage) : M unit :=
  fun s =>
    (Return tt,
     {| chats := chats s; messages := messages s ++ rows;
        assistantFullText := assistantFullText s;
        trace := trace s ++ [EvSaveMessages rows] |}).

Fixpoint insert_by_createdAt (m : DBMessage) (l : list DBMessage) : list DBMessage :=
  match l with
  | [] => [m]
  | x :: r =>
      if (createdAt m <=? createdAt x)%Z then m :: l
      else x :: insert_by_createdAt m r
  end.

Definition sort_by_createdAt (l : list DBMessage) : list DBMessage :=
  fold_right insert_by_createdAt [] l.

Definition messages_of_chat (id : string) (l : list DBMessage) : list DBMessage :=
  sort_by_createdAt (filter (fun m => String.eqb (chatId m) id) l).

(** Modelled from the spec: [getMessagesByChatId] is not among the
    sources; it reads all messages of the conversation in creation
    order. *)
Definition getMessagesByChatId (id : string) : M (list DBMessage) :=
  fun s => (Return (messages_of_chat id (messages s)), s).

Definition owned_by (uid : string) (cs : list Chat) (id : string) : bool :=
  match find (fun c => String.eqb (chat_id c) id) cs with
  | Some c => String.eqb (userId c) uid
  | None => false
  end.

Definition sent_since (uid : string) (since : Z) (cs : list Chat) (m : DBMessage) : bool :=
  Role_eqb (role m) RUser && (since <=? createdAt m)%Z && owned_by uid cs (chatId m).

Definition message_count (uid : string) (since : Z) (s : St) : Z :=
  Z.of_nat (List.length (filter (sent_since uid since (chats s)) (messages s))).

(** Modelled from the spec: [getMessageCountByUserId] is not among the
    sources; it counts the messages the identity sent (user turns of the
    identity's conversations) in the trailing window, computed on read
    from the message history. *)
Definition getMessageCountByUserId (e : Env) (uid : string) (differenceInHours : Z) : M Z :=
  fun s => (Return (message_count uid (now e - differenceInHours * 60 * 60 * 1000)%Z s), s).

(** Modelled from the spec: [deleteChatById] is not among the sources; it
    deletes the conversation with its messages and returns the deleted
    record. *)
Definition deleteChatById (id : string) : M (option Chat) :=
  fun s =>
    (Return (find (fun c => String.eqb (chat_id c) id) (chats s)),
     {| chats := filter (fun c => negb (String.eqb (chat_id c) id)) (chats s);
        messages := filter (fun m => negb (String.eqb (chatId m) id)) (messages s);
        assistantFullText := assistantFullText s;
        trace := trace s ++ [EvDeleteChat id] |}).

Definition convert_row (m : DBMessage) : ChatMessage :=
  {| msg_id := message_id m; msg_role := role m; msg_parts := parts m |}.

(** Modelled from the spec: [convertToUIMessages] ([lib/utils]) is not
    among the sources; it converts each stored message into the shape
    the workflow and the UI expect, keeping the order. *)
Definition convertToUIMessages (rows : list DBMessage) : list ChatMessage :=
  map convert_row rows.

End Model.

(* ================================================================== *)
(** * The route: [POST] and [DELETE] *)
(* ================================================================== *)

Module Route.
Import JS Model.
Local Open Scope handler_scope.

(** The codes given to [ChatSDKError]: ["bad_request:api"],
    ["unauthorized:chat"], ["forbidden:chat"], ["rate_limit:chat"] and
    ["offline:chat"]. *)
Inductive ErrorCode : Type :=
| bad_request_api
| unauthorized_chat
| forbidden_chat
| rate_limit_chat
| offline_chat.

Inductive Response : Type :=
| ErrorResponse (code : ErrorCode)      (* [new ChatSDKError(code).toResponse()] *)
| StreamResponse                        (* [new Response(stream.pipeThrough(...))] *)
| JsonResponse (body : option Chat) (status : N).   (* [Response.json(body, { status })] *)

(** [finishWriter]: call the first of [end], [close], [finish] that the
    writer has; do nothing when it has none. *)
Definition finishWriter (w : Writer) : M unit :=
  if has_end w then emit EvEnd
  else if has_close w then emit EvClose
  else if has_finish w then emit EvFinish
  else ret tt.

(** [typeof p[k] === "string"], with the string. *)
Definition string_prop (fields : list (jstr * json)) (k : jstr) : option jstr :=
  match lookup k fields with
  | Some (JStr s) => Some s
  | _ => None
  end.

(** [p.type === ty]. *)
Definition has_type (fields : list (jstr * json)) (ty : jstr) : bool :=
  match lookup (u "type") fields with
  | Some (JStr t) => eqb t ty
  | _ => false
  end.

(** [p.type === ty && typeof p[ty] === "string"], with [p[ty]]. *)
Definition typed_text (fields : list (jstr * json)) (ty : jstr) : option jstr :=
  if has_type fields ty then string_prop fields ty else None.

(** The loop of [makeTitleFromMessage]: it stops at the first part that
    is an object of type ["text"] (or ["input_text"]) with a string
    under that key, or that is itself a string.  Arrays are objects
    without these properties; [null], booleans and numbers are passed
    over. *)
Fixpoint firstText_of (parts : list json) : option jstr :=
  match parts with
  | [] => None
  | p :: rest =>
      match p with
      | JObj fields =>
          match typed_text fields (u "text") with
          | Some text => Some text
          | None =>
              match typed_text fields (u "input_text") with
              | Some input_text => Some input_text
              | None => firstText_of rest
              end
          end
      | JStr s => Some s
      | _ => firstText_of rest
      end
  end.

(** [makeTitleFromMessage(msg, fallback)] as [route.ts] has it: the first
    eight words of the first text, joined by single spaces.  An
    exception of [String(parts[0])] is caught and gives the fallback. *)
Definition makeTitleFromMessage (msg : ChatMessage) (fallback : jstr) : jstr :=
  let parts := msg_parts msg in
  let firstText :=
    match firstText_of parts with
    | Some t => if truthy t then Some t else None
    | None => None
    end in
  let firstText :=
    match firstText with
    | Some t => Some t
    | None =>
        to_String (match parts with
                   | [] | JNull :: _ => JStr []
                   | p0 :: _ => p0
                   end)
    end in
  match firstText with
  | None => fallback
  | Some t =>
      if truthy t then
        let words := join (u " ") (slice0 8 (split_ws (trim t))) in
        or_else words fallback
      else fallback
  end.

Definition apology : jstr :=
  u "Sorry " ++ [8212%N] ++ u " I couldn" ++ [8217%N] ++ u "t reach the agent right now.".

Definition no_reply : jstr :=
  u "I didn" ++ [8217%N] ++ u "t receive a reply from the agent.".

Definition workflow_returned (res : WorkflowResponse) : jstr :=
  u "Sorry " ++ [8212%N] ++ u " the workflow returned "
  ++ decimal (status res) ++ u " " ++ statusText res ++ u ".".

(** An environment variable tested for truthiness: unset and empty are
    both falsy. *)
Definition configured (v : option string) : option string :=
  match v with
  | Some s => if String.eqb s EmptyString then None else Some s
  | None => None
  end.

(** [fetch(webhookUrl, ...)]: the call is made, then it resolves or
    rejects. *)
Definition fetch (e : Env) (rq : FetchRequest) : M WorkflowResponse :=
  emit (EvFetch rq) ;;
  match fetch_outcome e with
  | FetchThrows => throw TransportError
  | FetchResponds r => ret r
  end.

(** [a ?? b]. *)
Definition coalesce (a : option json) (b : M json) : M json :=
  match a with
  | None | Some JNull => b
  | Some v => ret v
  end.

(** [String(data.output ?? data.answer ?? data.text ?? data.message ?? e)
     || JSON.stringify(data)], with [e] the empty string. *)
Definition read_answer (data : json) : M jstr :=
  v <- (output <- lift (get_prop data (u "output")) ;;
        coalesce output
          (answer <- lift (get_prop data (u "answer")) ;;
           coalesce answer
             (text <- lift (get_prop data (u "text")) ;;
              coalesce text
                (message <- lift (get_prop data (u "message")) ;;
                 coalesce message (ret (JStr [])))))) ;;
  match to_String v with
  | None => throw TypeError
  | Some s => ret (or_else s (stringify data))
  end.

(** The request [execute] sends: a POST of the JSON payload, with a
    bearer credential when [N8N_WEBHOOK_TOKEN] is set. *)
Definition webhook_request (e : Env) (id : string) (model : string)
    (message : ChatMessage) (history : list ChatMessage) (user : User)
    (webhookUrl : string) : FetchRequest :=
  {| url := webhookUrl;
     authorization :=
       match configured (N8N_WEBHOOK_TOKEN e) with
       | Some token => Some ("Bearer " ++ token)%string
       | None => None
       end;
     payload :=
       {| p_chatId := id; p_model := model; p_message := message;
          p_history := history; p_user := user |} |}.

(** The [execute] callback given to [createUIMessageStream]. *)
Definition execute (e : Env) (id : string) (model : string)
    (message : ChatMessage) (history : list ChatMessage) (user : User)
    (webhookUrl : string) : M unit :=
  let w := writer e in
  let msgId := msgId_uuid e in
  emit (EvWrite (MessageStart msgId RAssistant)) ;;
  try_catch
    (res <- fetch e (webhook_request e id model message history user webhookUrl) ;;
     if negb (ok res) then
       let errText := match res_text res with Some t => t | None => [] end in
       let msg := or_else errText (workflow_returned res) in
       set_assistantFullText msg ;;
       emit (EvWrite (TextDelta msg msgId)) ;;
       emit (EvWrite (MessageEnd msgId)) ;;
       finishWriter w
     else
       let ct := match content_type res with Some h => h | None => [] end in
       answer <-
         (if includes ct (u "application/json") then
            read_answer (match res_json res with Some d => d | None => JObj [] end)
          else
            match res_text res with
            | Some t => ret t
            | None => throw BodyError
            end) ;;
       let answer := or_else answer no_reply in
       set_assistantFullText answer ;;
       emit (EvWrite (TextDelta answer msgId)) ;;
       emit (EvWrite (MessageEnd msgId)) ;;
       finishWriter w)
    (fun _ =>
       let msg := apology in
       set_assistantFullText msg ;;
       emit (EvWrite (TextDelta msg msgId)) ;;
       emit (EvWrite (MessageEnd msgId)) ;;
       finishWriter w).

(** The [onFinish] callback: persist the messages the stream produced;
    when that write fails, persist the text [execute] remembered, by a
    second write that is not guarded and may fail as well. *)
Definition onFinish (e : Env) (id : string) (finished : list ChatMessage) : M unit :=
  try_catch
    (if persist_fails e then throw StoreError
     else
       saveMessages
         (map (fun m =>
                 {| message_id := msg_id m; role := msg_role m; parts := msg_parts m;
                    attachments := []; chatId := id; createdAt := now e |})
              finished))
    (fun _ =>
       t <- get_assistantFullText ;;
       if truthy t then
         if fallback_fails e then throw StoreError
         else
           saveMessages
             [{| message_id := fallback_uuid e; role := RAssistant;
                 parts := [JObj [(u "type", JStr (u "text")); (u "text", JStr t)]];
                 attachments := []; chatId := id; createdAt := now e |}]
       else ret tt).

(** The message of the assistant that the stream produced. *)
Definition assistant_message (m : ResponseMessage) : ChatMessage :=
  {| msg_id := rm_id m; msg_role := RAssistant; msg_parts := rm_parts m |}.

(** Modelled from the spec: [createUIMessageStream] belongs to the
    streaming helper (the package [ai]), which is not among the sources.
    The specification has the handler open an incremental output channel
    to the caller, emit the reply on it as ordered chunks, then close
    it, and has the assistant's reply persisted after the outgoing
    stream completes.  So: [execute] runs with the writer, then
    [onFinish] receives the messages of the assistant that the stream
    produced.  The handler has returned its [Response] by then: an
    exception of a callback stays inside the stream and does not become
    the outcome of the handler. *)
Definition createUIMessageStream (produced : list ResponseMessage)
    (execute : M unit) (onFinish : list ChatMessage -> M unit) : M unit :=
  try_catch (execute ;; onFinish (map assistant_message produced))
            (fun _ => ret tt).

(** [chat && chat.userId !== session.user.id]. *)
Definition owned_by_other (chat : option Chat) (user : User) : bool :=
  match chat with
  | Some c => negb (String.eqb (userId c) (user_id user))
  | None => false
  end.

(** [chat?.userId !== session.user.id]: a missing chat has the owner
    [undefined], different from every user id. *)
Definition not_owner (chat : option Chat) (user : User) : bool :=
  match chat with
  | Some c => negb (String.eqb (userId c) (user_id user))
  | None => true
  end.

(** The row written for the user's message. *)
Definition user_row (e : Env) (body : PostRequestBody) : DBMessage :=
  {| chatId := body_id body;
     message_id := msg_id (body_message body);
     role := RUser;
     parts := msg_parts (body_message body);
     attachments := [];
     createdAt := now e |}.

Section Handlers.

(** The table [entitlementsByUserType] ([lib/ai/entitlements]). *)
Variable entitlementsByUserType : UserType -> Entitlements.

Definition POST (e : Env) : M Response :=
  match request_body e with
  | None => ret (ErrorResponse bad_request_api)
  | Some body =>
      let id := body_id body in
      let message := body_message body in
      match session_user e with
      | None => ret (ErrorResponse unauthorized_chat)
      | Some user =>
          let userType := user_type user in
          messageCount <- getMessageCountByUserId e (user_id user) 24 ;;
          if (maxMessagesPerDay (entitlementsByUserType userType) <? messageCount)%Z
          then ret (ErrorResponse rate_limit_chat)
          else
            chat <- getChatById id ;;
            if owned_by_other chat user then ret (ErrorResponse forbidden_chat)
            else
              match chat with
              | None =>
                  saveChat {| chat_id := id; userId := user_id user;
                              title := makeTitleFromMessage message (u "New chat");
                              visibility := selectedVisibilityType body |}
              | Some _ => ret tt
              end ;;
              saveMessages [user_row e body] ;;
              rows <- getMessagesByChatId id ;;
              let history := convertToUIMessages rows ++ [message] in
              match configured (N8N_WEBHOOK_URL e) with
              | None => ret (ErrorResponse offline_chat)
              | Some webhookUrl =>
                  set_assistantFullText [] ;;
                  createUIMessageStream (finished_messages e)
                    (execute e id (selectedChatModel body) message history user webhookUrl)
                    (onFinish e id) ;;
                  ret StreamResponse
              end
      end
  end.

End Handlers.

(** [DELETE], with the [id] parameter of the query string. *)
Definition DELETE (e : Env) (searchParams_id : option string) : M Response :=
  match configured searchParams_id with
  | None => ret (ErrorResponse bad_request_api)
  | Some id =>
      match session_user e with
      | None => ret (ErrorResponse unauthorized_chat)
      | Some user =>
          chat <- getChatById id ;;
          if not_owner chat user then ret (ErrorResponse forbidden_chat)
          else
            deletedChat <- deleteChatById id ;;
            ret (JsonResponse deletedChat 200)
      end
  end.

End Route.

(* ================================================================== *)
(** * The sibling drafts of the route *)
(* ================================================================== *)

(** The other drafts of [route.ts] kept in the repository share the
    guards of [POST]; two of their steps differ from the final file and
    are recorded here. *)
Module Drafts.
Import JS Model Route.

(** [makeTitleFromMessage] of the drafts: as in [route.ts], and then
    [clipped = words.length > 80 ? words.slice(0, 80) : words]. *)
Definition makeTitleFromMessage (msg : ChatMessage) (fallback : jstr) : jstr :=
  let parts := msg_parts msg in
  let firstText :=
    match firstText_of parts with
    | Some t => if truthy t then Some t else None
    | None => None
    end in
  let firstText :=
    match firstText with
    | Some t => Some t
    | None =>
        to_String (match parts with
                   | [] | JNull :: _ => JStr []
                   | p0 :: _ => p0
                   end)
    end in
  match firstText with
  | None => fallback
  | Some t =>
      if truthy t then
        let words := join (u " ") (slice0 8 (split_ws (trim t))) in
        let clipped :=
          if (80 <? List.length words)%nat then firstn 80 words else words in
        or_else clipped fallback
      else fallback
  end.

(** [uiHistory] of the drafts: the stored messages are read before the
    user's row is written. *)
Definition uiHistory (s : St) (body : PostRequestBody) : list ChatMessage :=
  convertToUIMessages (messages_of_chat (body_id body) (messages s))
  ++ [body_message body].

End Drafts.

(** The draft that buffers the reply ([extractAssistantText], kept with
    [DELETE] in the same source file). *)
Module Buffered.
Import JS Model Route.

(** [json?.k]: the property, or [undefined] when [json] is [null]. *)
Definition get_prop_opt (v : json) (k : jstr) : option json :=
  match get_prop v k with
  | inr r => r
  | inl _ => None
  end.

(** [a ?? b] where neither side has an effect. *)
Definition or_value (a : option json) (b : json) : json :=
  match a with
  | None | Some JNull => b
  | Some v => v
  end.

(** [extractAssistantText(res)].  The value returned is whatever the
    selected key holds, a string or not.  [retry] is the result of the
    second [res.text()], the one of the [catch] block; the function
    rejects when that read rejects too. *)
Definition extractAssistantText (res : WorkflowResponse) (retry : option jstr)
    : exn + json :=
  let ctype := match content_type res with Some h => h | None => [] end in
  match
    (if includes ctype (u "application/json") then
       match res_json res with
       | Some json =>
           Some (or_value (get_prop_opt json (u "answer"))
                   (or_value (get_prop_opt json (u "text"))
                      (or_value (get_prop_opt json (u "content"))
                         (JStr (stringify json)))))
       | None => None
       end
     else option_map JStr (res_text res))
  with
  | Some v => inr v
  | None =>
      match retry with
      | Some t => inr (JStr t)
      | None => inl BodyError
      end
  end.

End Buffered.

(** The draft that writes the chunks inline ([makeTitleFromMessage]
    without the final fallback). *)
Module Inline.
Import JS Model Route.

(** [makeTitleFromMessage] of this draft: the clipped words are returned
    as they are, [return words.length > 80 ? words.slice(0, 80) : words]. *)
Definition makeTitleFromMessage (msg : ChatMessage) (fallback : jstr) : jstr :=
  let parts := msg_parts msg in
  let firstText :=
    match firstText_of parts with
    | Some t => if truthy t then Some t else None
    | None => None
    end in
  let firstText :=
    match firstText with
    | Some t => Some t
    | None =>
        to_String (match parts with
                   | [] | JNull :: _ => JStr []
                   | p0 :: _ => p0
                   end)
    end in
  match firstText with
  | None => fallback
  | Some t =>
      if truthy t then
        let words := join (u " ") (slice0 8 (split_ws (trim t))) in
        if (80 <? List.length words)%nat then firstn 80 words else words
      else fallback
  end.

End Inline.

(** The draft that proxies the body of the workflow response to the UI
    stream: [fetch] is called before the stream is created. *)
Module Proxy.
Import JS Model Route.
Local Open Scope handler_scope.

(** [p?.type === "text"]. *)
Definition is_text_part (p : json) : bool :=
  match p with
  | JObj fields => has_type fields (u "text")
  | _ => false
  end.

(** [msg?.parts?.find((p) => p?.type === "text")?.text]. *)
Definition found_text (parts : list json) : option json :=
  match find is_text_part parts with
  | Some (JObj fields) => lookup (u "text") fields
  | _ => None
  end.

(** [makeTitleFromMessage] of this draft.  [firstText] is the [text] of
    the first part of type ["text"], whatever its type, and falls back
    to [String(parts[0])] only when it is missing or [null].  A
    [firstText] that is not a string gives the fallback: when falsy by
    the test [!firstText], when truthy because [firstText.trim] is not a
    function and the exception is caught.  The last line reads
    [words.length > 80 ? words.slice(0, 80) : (words || fallback)]. *)
Definition makeTitleFromMessage (msg : ChatMessage) (fallback : jstr) : jstr :=
  let parts := msg_parts msg in
  let firstText : option json :=
    match found_text parts with
    | None | Some JNull =>
        option_map JStr
          (to_String (match parts with
                      | [] | JNull :: _ => JStr []
                      | p0 :: _ => p0
                      end))
    | Some v => Some v
    end in
  match firstText with
  | Some (JStr t) =>
      if truthy t then
        let words := join (u " ") (slice0 8 (split_ws (trim t))) in
        if (80 <? List.length words)%nat then firstn 80 words
        else or_else words fallback
      else fallback
  | _ => fallback
  end.

(** The body of the response as the stream reads it: the decoded text of
    each chunk [reader.read()] yields, and whether the read after the
    last chunk rejects instead of reporting the end. *)
Record BodyStream : Type := { chunks : list jstr; read_fails : bool }.

Definition connection_error : jstr :=
  u "There was an error connecting to the assistant.".

(** The loop [while (true) { read; if (done) break; write }]. *)
Fixpoint pump (msgId : string) (decoded : list jstr) : M unit :=
  match decoded with
  | [] => ret tt
  | c :: rest => emit (EvWrite (TextDelta c msgId)) ;; pump msgId rest
  end.

(** The [execute] callback of this draft.  [body] is [None] when
    [res.body] is [null]. *)
Definition execute (e : Env) (res : WorkflowResponse) (body : option BodyStream)
    : M unit :=
  let w := writer e in
  let msgId := msgId_uuid e in
  try_catch
    (match body with
     | None =>
         match res_text res with
         | Some text => emit (EvWrite (TextDelta text msgId)) ;; finishWriter w
         | None => throw BodyError
         end
     | Some stream =>
         pump msgId (chunks stream) ;;
         (if read_fails stream then throw BodyError else ret tt) ;;
         finishWriter w
     end)
    (fun _ =>
       emit (EvWrite (TextDelta connection_error msgId)) ;;
       finishWriter w).

(** The [onFinish] callback of this draft: the write is not guarded. *)
Definition onFinish (e : Env) (id : string) (finished : list ChatMessage) : M unit :=
  if persist_fails e then throw StoreError
  else
    saveMessages
      (map (fun m =>
              {| message_id := msg_id m; role := msg_role m; parts := msg_parts m;
                 createdAt := now e; attachments := []; chatId := id |})
           finished).

Section Handlers.

Variable entitlementsByUserType : UserType -> Entitlements.

Definition POST (e : Env) (body_stream : option BodyStream) : M Response :=
  match request_body e with
  | None => ret (ErrorResponse bad_request_api)
  | Some body =>
      let id := body_id body in
      let message := body_message body in
      match session_user e with
      | None => ret (ErrorResponse unauthorized_chat)
      | Some user =>
          let userType := user_type user in
          messageCount <- getMessageCountByUserId e (user_id user) 24 ;;
          if (maxMessagesPerDay (entitlementsByUserType userType) <? messageCount)%Z
          then ret (ErrorResponse rate_limit_chat)
          else
            chat <- getChatById id ;;
            if owned_by_other chat user then ret (ErrorResponse forbidden_chat)
            else
              match chat with
              | None =>
                  saveChat {| chat_id := id; userId := user_id user;
                              title := makeTitleFromMessage message (u "New chat");
                              visibility := selectedVisibilityType body |}
              | Some _ => ret tt
              end ;;
              rows <- getMessagesByChatId id ;;
              let uiHistory := convertToUIMessages rows ++ [message] in
              saveMessages [user_row e body] ;;
              match configured (N8N_WEBHOOK_URL e) with
              | None => ret (ErrorResponse offline_chat)
              | Some webhookUrl =>
                  res <- try_catch
                           (r <- fetch e (webhook_request e id (selectedChatModel body)
                                            message uiHistory user webhookUrl) ;;
                            ret (Some r))
                           (fun _ => ret None) ;;
                  match res with
                  | None => ret (ErrorResponse offline_chat)
                  | Some res =>
                      createUIMessageStream (finished_messages e)
                        (execute e res body_stream)
                        (onFinish e id) ;;
                      ret StreamResponse
                  end
              end
      end
  end.

End Handlers.

End Proxy.

(* ================================================================== *)
(** * Properties of the handler *)
(* ================================================================== *)

Import JS Model Route.
Local Open Scope string_scope.
Local Open Scope list_scope.
Local Open Scope handler_scope.

(** The events a computation adds to the trace of the state it starts
    from. *)
Definition events_of {A} (m : M A) (s : St) : list Event :=
  skipn (List.length (trace s)) (trace (snd (m s))).

(** The texts of the [text-delta] chunks written to the writer among
    some events, in the order of the writes. *)
Definition deltas (evs : list Event) : list jstr :=
  flat_map (fun ev => match ev with
                      | EvWrite (TextDelta d _) => [d]
                      | _ => []
                      end) evs.

(** Modelled from the spec: the output channel to the caller is the
    stream of the helper package [ai] piped through
    [JsonToSseTransformStream], neither among the sources.  The
    specification describes it as an incremental output channel on which
    the handler emits the reply as ordered chunks framed with start,
    delta and end markers that carry a stable message identifier: the
    caller receives the chunks written to the writer, in the order of
    the writes. *)
Definition output_channel (evs : list Event) : list Chunk :=
  flat_map (fun ev => match ev with
                      | EvWrite c => [c]
                      | _ => []
                      end) evs.

Definition is_fetch (ev : Event) : bool :=
  match ev with EvFetch _ => true | _ => false end.

Definition is_finalizer (ev : Event) : bool :=
  match ev with EvEnd | EvClose | EvFinish => true | _ => false end.

(** The trailing window of the rate limit, in milliseconds before
    [now]. *)
Definition window_start (e : Env) : Z := (now e - 24 * 60 * 60 * 1000)%Z.

(** The chat the request addresses, as the store has it. *)
Definition chat_of (s : St) (id : string) : option Chat :=
  find (fun c => String.eqb (chat_id c) id) (chats s).

(** ** The four guards of [POST], in the words of the specification *)

Definition fails_validation (e : Env) : Prop := request_body e = None.

Definition fails_authentication (e : Env) : Prop := session_user e = None.

Definition fails_rate_limit (tbl : UserType -> Entitlements) (e : Env) (s : St) : Prop :=
  exists user,
    session_user e = Some user
    /\ (maxMessagesPerDay (tbl (user_type user))
        < message_count (user_id user) (window_start e) s)%Z.

Definition fails_ownership (e : Env) (s : St) : Prop :=
  exists body user c,
    request_body e = Some body
    /\ session_user e = Some user
    /\ chat_of s (body_id body) = Some c
    /\ userId c <> user_id user.

(** The check an error code reports. *)
Definition reported_failure (tbl : UserType -> Entitlements) (code : ErrorCode)
    (e : Env) (s : St) : Prop :=
  match code with
  | bad_request_api => fails_validation e
  | unauthorized_chat => fails_authentication e
  | rate_limit_chat => fails_rate_limit tbl e s
  | forbidden_chat => fails_ownership e s
  | offline_chat => False
  end.

(** A request that passes the four guards. *)
Definition passes_guards (tbl : UserType -> Entitlements) (e : Env) (s : St)
    (body : PostRequestBody) (user : User) : Prop :=
  request_body e = Some body
  /\ session_user e = Some user
  /\ (message_count (user_id user) (window_start e) s
      <= maxMessagesPerDay (tbl (user_type user)))%Z
  /\ (forall c, chat_of s (body_id body) = Some c -> userId c = user_id user).

(** ** The reply, read off the response

    The next definitions say in one place what [execute] writes; they
    are proved to agree with [execute] below. *)

(** The keys of a JSON reply, in the order [execute] tries them. *)
Definition reply_keys : list jstr :=
  [u "output"; u "answer"; u "text"; u "message"].

(** The value of the first key, in the given order, that the body has
    with a value other than [null]. *)
Fixpoint first_present (keys : list jstr) (data : json) : option json :=
  match keys with
  | [] => None
  | k :: rest =>
      match get_prop data k with
      | inr (Some JNull) | inr None | inl _ => first_present rest data
      | inr (Some v) => Some v
      end
  end.

(** The text extracted from a JSON body; [None] when the extraction
    throws. *)
Definition answer_of_json (data : json) : option jstr :=
  match data with
  | JNull => None
  | _ =>
      match to_String (match first_present reply_keys data with
                       | Some v => v
                       | None => JStr []
                       end) with
      | Some t => Some (or_else t (stringify data))
      | None => None
      end
  end.

(** [ct.includes("application/json")] for the header of the response. *)
Definition is_json_reply (res : WorkflowResponse) : bool :=
  includes (match content_type res with Some h => h | None => [] end)
           (u "application/json").

(** [await res.json().catch(() => ({}))]. *)
Definition parsed_body (res : WorkflowResponse) : json :=
  match res_json res with
  | Some d => d
  | None => JObj []
  end.

(** The text of the delta [execute] writes for each outcome of [fetch]. *)
Definition reply_of (f : FetchOutcome) : jstr :=
  match f with
  | FetchThrows => apology
  | FetchResponds res =>
      if ok res then
        match (if is_json_reply res then answer_of_json (parsed_body res)
               else res_text res) with
        | Some answer => or_else answer no_reply
        | None => apology
        end
      else or_else (match res_text res with Some t => t | None => [] end)
                   (workflow_returned res)
  end.

(** The reply to a success-status response in the words of the
    specification: the string value of the first present key, or the
    serialization of the body when that gives no non-empty string; the
    body text when the reply is not JSON; the placeholder when the
    extracted text is empty.  [None] where these words give no text (no
    JSON body or no body text to speak of). *)
Definition reply_as_claimed (res : WorkflowResponse) : option jstr :=
  option_map (fun extracted => or_else extracted no_reply)
    (if is_json_reply res then
       match res_json res with
       | Some data =>
           match first_present reply_keys data with
           | Some v =>
               match to_String v with
               | Some t => Some (or_else t (stringify data))
               | None => None
               end
           | None => Some (stringify data)
           end
       | None => None
       end
     else res_text res).

(** The call [finishWriter] makes on a writer, if any. *)
Definition finalizer_calls (w : Writer) : list Event :=
  if has_end w then [EvEnd]
  else if has_close w then [EvClose]
  else if has_finish w then [EvFinish]
  else [].

(** The events of [execute], in order. *)
Definition stream_events (e : Env) (rq : FetchRequest) : list Event :=
  [EvWrite (MessageStart (msgId_uuid e) RAssistant); EvFetch rq;
   EvWrite (TextDelta (reply_of (fetch_outcome e)) (msgId_uuid e));
   EvWrite (MessageEnd (msgId_uuid e))].

(** ** What an admitted request does *)

(** The chat record [POST] creates for a conversation id it has not
    seen. *)
Definition new_chat (body : PostRequestBody) (user : User) : Chat :=
  {| chat_id := body_id body;
     userId := user_id user;
     title := makeTitleFromMessage (body_message body) (u "New chat");
     visibility := selectedVisibilityType body |}.

Definition created_chats (s : St) (body : PostRequestBody) (user : User) : list Chat :=
  match chat_of s (body_id body) with
  | None => [new_chat body user]
  | Some _ => []
  end.

(** The history [POST] forwards: read after the user's row is written. *)
Definition forwarded_history (e : Env) (s : St) (body : PostRequestBody) : list ChatMessage :=
  convertToUIMessages
    (messages_of_chat (body_id body) (messages s ++ [user_row e body]))
  ++ [body_message body].

Definition forwarded_request (e : Env) (s : St) (body : PostRequestBody)
    (user : User) (webhookUrl : string) : FetchRequest :=
  webhook_request e (body_id body) (selectedChatModel body) (body_message body)
    (forwarded_history e s body) user webhookUrl.

(** The events of the two writes that follow the guards. *)
Definition admission_events (e : Env) (s : St) (body : PostRequestBody)
    (user : User) : list Event :=
  map EvSaveChat (created_chats s body user) ++ [EvSaveMessages [user_row e body]].

(** An event that writes a row of a user turn. *)
Definition writes_user_row (ev : Event) : bool :=
  match ev with
  | EvSaveMessages rows => existsb (fun r => Role_eqb (role r) RUser) rows
  | _ => false
  end.

(** ** Sample requests *)

Definition sample_table (t : UserType) : Entitlements :=
  {| maxMessagesPerDay := match t with guest => 2 | regular => 3 end |}.

Definition alice : User := {| user_id := "alice"; user_type := regular |}.

Definition text_part (t : jstr) : json :=
  JObj [(u "type", JStr (u "text")); (u "text", JStr t)].

Definition file_part : json :=
  JObj [(u "type", JStr (u "file")); (u "mediaType", JStr (u "image/png"));
        (u "name", JStr (u "a.png")); (u "url", JStr (u "https://files.example/a.png"))].

Definition user_message (id : string) (parts : list json) : ChatMessage :=
  {| msg_id := id; msg_role := RUser; msg_parts := parts |}.

Definition sample_body (m : ChatMessage) : PostRequestBody :=
  {| body_id := "c1"; body_message := m;
     selectedChatModel := "chat-model"; selectedVisibilityType := Private |}.

Definition hi : ChatMessage := user_message "m1" [text_part (u "hi")].

Definition plain_writer : Writer :=
  {| has_end := false; has_close := false; has_finish := false |}.

Definition closing_writer : Writer :=
  {| has_end := false; has_close := true; has_finish := true |}.

(** A request with the endpoint configured and a stream that finishes
    with one assistant message. *)
Definition sample_env (body : option PostRequestBody) (user : option User)
    (f : FetchOutcome) : Env :=
  {| request_body := body;
     session_user := user;
     N8N_WEBHOOK_URL := Some "https://n8n.example/webhook";
     N8N_WEBHOOK_TOKEN := None;
     now := 1700000000000;
     fetch_outcome := f;
     writer := closing_writer;
     msgId_uuid := "uuid-1";
     fallback_uuid := "uuid-2";
     finished_messages :=
       [{| rm_id := "uuid-1"; rm_parts := [text_part (reply_of f)] |}];
     persist_fails := false;
     fallback_fails := false |}.

Definition empty_store : St :=
  {| chats := []; messages := []; assistantFullText := []; trace := [] |}.

(** A store where the conversation [c1] belongs to somebody else. *)
Definition bobs_store : St :=
  {| chats := [{| chat_id := "c1"; userId := "bob"; title := u "Bob";
                  visibility := Private |}];
     messages := []; assistantFullText := []; trace := [] |}.

Definition user_turn (chat id : string) (at_ : Z) : DBMessage :=
  {| chatId := chat; message_id := id; role := RUser; parts := [text_part (u "x")];
     attachments := []; createdAt := at_ |}.

(** A store where alice has used up her quota of three messages. *)
Definition full_store : St :=
  {| chats := [{| chat_id := "c1"; userId := "alice"; title := u "hi";
                  visibility := Private |}];
     messages := [user_turn "c1" "a1" 1699999000000;
                  user_turn "c1" "a2" 1699999100000;
                  user_turn "c1" "a3" 1699999200000];
     assistantFullText := []; trace := [] |}.

Definition response (st : N) (st_text : string) (ct : option string)
    (text : option jstr) (data : option json) : WorkflowResponse :=
  {| status := st; statusText := u st_text;
     content_type := option_map u ct; res_text := text; res_json := data |}.

(** A success-status reply whose JSON body is [null]. *)
Definition null_reply : WorkflowResponse :=
  response 200 "OK" (Some "application/json") (Some (u "null")) (Some JNull).

(** A success-status reply with the JSON body [{"answer": "42"}]. *)
Definition answer_42 : WorkflowResponse :=
  response 200 "OK" (Some "application/json; charset=utf-8")
    (Some (u "{" ++ quote (u "answer") ++ u ": " ++ quote (u "42") ++ u "}"))
    (Some (JObj [(u "answer", JStr (u "42"))])).

(** A success-status reply with a plain-text body. *)
Definition hello_text : WorkflowResponse :=
  response 200 "OK" (Some "text/plain") (Some (u "hello")) None.

(** A 503 without a body. *)
Definition unavailable : WorkflowResponse :=
  response 503 "Service Unavailable" None (Some []) None.

(** A message whose text is one word of 81 letters. *)
Definition long_word : jstr := repeat 97%N 81.
Definition long_word_message : ChatMessage := user_message "m1" [text_part long_word].

(** A message with an image and no text. *)
Definition image_message : ChatMessage := user_message "m1" [file_part].

(** How many messages of a history carry a given id. *)
Definition occurrences (id : string) (history : list ChatMessage) : nat :=
  List.length (filter (fun m => String.eqb (msg_id m) id) history).

(** A piece of text without white space. *)
Definition is_word (w : jstr) : Prop := Forall (fun c => is_ws c = false) w.

(** The request that opens the conversation [c1] for alice. *)
Definition first_post (m : ChatMessage) (f : FetchOutcome) : Env :=
  sample_env (Some (sample_body m)) (Some alice) f.

(** The text deltas the sample request writes to the writer for an
    outcome of the webhook call. *)
Definition written_for (f : FetchOutcome) : list jstr :=
  deltas (events_of
            (execute (first_post hi f) "c1" "chat-model" hi [hi] alice
               "https://n8n.example/webhook")
            empty_store).

(** A JSON content type with a body that does not parse. *)
Definition unparseable_json : WorkflowResponse :=
  response 200 "OK" (Some "application/json") (Some (u "oops")) None.

(** A JSON body whose [output] is the empty string and whose [answer] is
    ["42"]. *)
Definition empty_output : json :=
  JObj [(u "output", JStr []); (u "answer", JStr (u "42"))].

(** A JSON body whose [output] is [null] and whose [text] is a number. *)
Definition null_output : json :=
  JObj [(u "output", JNull); (u "text", JNum (u "42") true)].

Definition json_reply (data : json) : WorkflowResponse :=
  response 200 "OK" (Some "application/json") (Some (stringify data)) (Some data).

(** ** Vocabulary of the further properties *)

(** The rows [onFinish] writes for the messages of the stream. *)
Definition finished_rows (e : Env) (id : string) : list DBMessage :=
  map (fun m =>
         {| message_id := rm_id m; role := RAssistant; parts := rm_parts m;
            attachments := []; chatId := id; createdAt := now e |})
      (finished_messages e).

(** The row [onFinish] writes instead when that write fails. *)
Definition fallback_row (e : Env) (id : string) (t : jstr) : DBMessage :=
  {| message_id := fallback_uuid e; role := RAssistant;
     parts := [JObj [(u "type", JStr (u "text")); (u "text", JStr t)]];
     attachments := []; chatId := id; createdAt := now e |}.

(** The writes of [onFinish], given the text [execute] remembered: the
    rows of the stream's messages; when that write fails, the fallback
    row if the text is not empty; nothing when the fallback write fails
    too. *)
Definition persisted_rows (e : Env) (id : string) (t : jstr) : list (list DBMessage) :=
  if persist_fails e then
    if truthy t then
      if fallback_fails e then [] else [[fallback_row e id t]]
    else []
  else [finished_rows e id].

(** A word of a title: not empty and without white space. *)
Definition is_title_word (w : jstr) : Prop := w <> [] /\ is_word w.


(** The same request with the write of [onFinish] failing. *)
Definition with_failing_persist (e : Env) : Env :=
  {| request_body := request_body e; session_user := session_user e;
     N8N_WEBHOOK_URL := N8N_WEBHOOK_URL e; N8N_WEBHOOK_TOKEN := N8N_WEBHOOK_TOKEN e;
     now := now e; fetch_outcome := fetch_outcome e; writer := writer e;
     msgId_uuid := msgId_uuid e; fallback_uuid := fallback_uuid e;
     finished_messages := finished_messages e; persist_fails := true;
     fallback_fails := fallback_fails e |}.

(** The same request without the endpoint configured. *)
Definition without_endpoint (e : Env) : Env :=
  {| request_body := request_body e; session_user := session_user e;
     N8N_WEBHOOK_URL := None; N8N_WEBHOOK_TOKEN := N8N_WEBHOOK_TOKEN e;
     now := now e; fetch_outcome := fetch_outcome e; writer := writer e;
     msgId_uuid := msgId_uuid e; fallback_uuid := fallback_uuid e;
     finished_messages := finished_messages e; persist_fails := persist_fails e;
     fallback_fails := fallback_fails e |}.

(** Nine words, and a text that spells them with single spaces. *)
Definition nine_words : list jstr :=
  [u "one"; u "two"; u "three"; u "four"; u "five"; u "six"; u "seven";
   u "eight"; u "nine"].

(** A body read in three chunks. *)
Definition three_chunks : Proxy.BodyStream :=
  {| Proxy.chunks := [u "Hel"; u "lo "; u "there"]; Proxy.read_fails := false |}.

(** A body whose read fails after the first chunk. *)
Definition broken_stream : Proxy.BodyStream :=
  {| Proxy.chunks := [u "Hel"]; Proxy.read_fails := true |}.

(** The keys [extractAssistantText] tries, in order. *)
Definition buffered_keys : list jstr := [u "answer"; u "text"; u "content"].

(** The chat the proxying draft creates for a new conversation. *)
Definition proxy_created_chats (s : St) (body : PostRequestBody) (user : User)
    : list Chat :=
  match chat_of s (body_id body) with
  | None =>
      [{| chat_id := body_id body; userId := user_id user;
          title := Proxy.makeTitleFromMessage (body_message body) (u "New chat");
          visibility := selectedVisibilityType body |}]
  | Some _ => []
  end.

(** The request the proxying draft sends: the history is the one read
    before the user's row is written. *)
Definition proxy_request (e : Env) (s : St) (body : PostRequestBody)
    (user : User) (webhookUrl : string) : FetchRequest :=
  webhook_request e (body_id body) (selectedChatModel body) (body_message body)
    (Drafts.uiHistory s body) user webhookUrl.

(** The texts the proxying draft writes to the stream for a response:
    the body text when the response has no body stream, the chunks as
    they are read otherwise, and the fixed error text when a read
    fails. *)
Definition proxied_texts (res : WorkflowResponse) (body : option Proxy.BodyStream)
    : list jstr :=
  match body with
  | None =>
      match res_text res with
      | Some text => [text]
      | None => [Proxy.connection_error]
      end
  | Some stream =>
      Proxy.chunks stream
      ++ (if Proxy.read_fails stream then [Proxy.connection_error] else [])
  end.

Definition delta_writes (id : string) (texts : list jstr) : list Event :=
  map (fun t => EvWrite (TextDelta t id)) texts.

(** A store with one conversation of alice and one of bob, each with a
    message. *)
Definition shared_store : St :=
  {| chats := [{| chat_id := "c1"; userId := "alice"; title := u "hi";
                  visibility := Private |};
               {| chat_id := "c2"; userId := "bob"; title := u "Bob";
                  visibility := Public |}];
     messages := [user_turn "c1" "a1" 1699999000000;
                  user_turn "c2" "b1" 1699999100000];
     assistantFullText := []; trace := [] |}.

(** The decimal digits a text consists of, if it consists of digits. *)
Fixpoint undigits (t : jstr) : option Decimal.uint :=
  match t with
  | [] => Some Decimal.Nil
  | c :: r =>
      match undigits r with
      | None => None
      | Some d =>
          (if c =? 48 then Some (Decimal.D0 d) else
           if c =? 49 then Some (Decimal.D1 d) else
           if c =? 50 then Some (Decimal.D2 d) else
           if c =? 51 then Some (Decimal.D3 d) else
           if c =? 52 then Some (Decimal.D4 d) else
           if c =? 53 then Some (Decimal.D5 d) else
           if c =? 54 then Some (Decimal.D6 d) else
           if c =? 55 then Some (Decimal.D7 d) else
           if c =? 56 then Some (Decimal.D8 d) else
           if c =? 57 then Some (Decimal.D9 d) else None)%N
      end
  end.

(** The number a non-empty text of decimal digits denotes, by the
    library's reading of decimal numerals. *)
Definition decimal_value (t : jstr) : option N :=
  match t with
  | [] => None
  | _ :: _ => option_map N.of_uint (undigits t)
  end.

(** ** Basic facts *)

Lemma skipn_length_app {A} (l evs : list A) : skipn (List.length l) (l ++ evs) = evs.
Proof. induction l as [|x l IH]; simpl; auto. Qed.

Lemma events_of_trace {A} (m : M A) (s : St) (evs : list Event) :
  trace (snd (m s)) = trace s ++ evs -> events_of m s = evs.
Proof. unfold events_of. intros ->. apply skipn_length_app. Qed.

Lemma St_eta (s : St) :
  {| chats := chats s; messages := messages s;
     assistantFullText := assistantFullText s; trace := trace s |} = s.
Proof. destruct s; reflexivity. Qed.

Lemma owned_by_other_false (chat : option Chat) (user : User) :
  owned_by_other chat user = false <->
  (forall c, chat = Some c -> userId c = user_id user).
Proof.
  unfold owned_by_other. destruct chat as [c|].
  - rewrite negb_false_iff, String.eqb_eq. split.
    + intros H c' Hc. inversion Hc; subst; exact H.
    + intros H. apply H. reflexivity.
  - split; [intros _ c Hc; discriminate | reflexivity].
Qed.

Lemma owned_by_other_true (chat : option Chat) (user : User) :
  owned_by_other chat user = true <->
  (exists c, chat = Some c /\ userId c <> user_id user).
Proof.
  unfold owned_by_other. destruct chat as [c|].
  - rewrite negb_true_iff, String.eqb_neq. split.
    + intros H. exists c. auto.
    + intros [c' [Hc H]]. inversion Hc; subst; exact H.
  - split; [discriminate | intros [c [Hc _]]; discriminate].
Qed.

(** ** C1: rejected requests change nothing *)

(** C1. A [POST] that fails body validation, authentication, the rate
    limit or the ownership guard returns the error of a check that it
    failed (the first one in the order validation, authentication, rate
    limit, ownership) and leaves the state as it was: the chat table,
    the message table and the trace are unchanged, so no chat is
    created, no message written and no webhook call made. *)
Theorem POST_rejection_has_no_effect
    (tbl : UserType -> Entitlements) (e : Env) (s : St) :
  fails_validation e \/ fails_authentication e
  \/ fails_rate_limit tbl e s \/ fails_ownership e s ->
  exists code,
    POST tbl e s = (Return (ErrorResponse code), s)
    /\ reported_failure tbl code e s
    /\ code <> offline_chat.
Proof.
  intros Hfail. unfold POST.
  destruct (request_body e) as [body|] eqn:Hbody.
  2:{ exists bad_request_api. repeat split; try discriminate. exact Hbody. }
  destruct (session_user e) as [user|] eqn:Huser.
  2:{ exists unauthorized_chat. repeat split; try discriminate. exact Huser. }
  unfold bind, getMessageCountByUserId, getChatById. cbn [fst snd].
  fold (window_start e).
  replace (now e - 24 * 60 * 60 * 1000)%Z with (window_start e) by reflexivity.
  destruct (maxMessagesPerDay (tbl (user_type user))
            <? message_count (user_id user) (window_start e) s)%Z eqn:Hcount.
  { exists rate_limit_chat. repeat split; try discriminate.
    exists user. split; [exact Huser | now apply Z.ltb_lt]. }
  fold (chat_of s (body_id body)).
  destruct (owned_by_other (chat_of s (body_id body)) user) eqn:Hown.
  { exists forbidden_chat. repeat split; try discriminate.
    apply owned_by_other_true in Hown. destruct Hown as [c [Hc Hne]].
    exists body, user, c. auto. }
  exfalso.
  destruct Hfail as [H | [H | [H | H]]].
  - unfold fails_validation in H. congruence.
  - unfold fails_authentication in H. congruence.
  - destruct H as [user' [Hu Hlt]]. rewrite Huser in Hu. inversion Hu; subst user'.
    apply Z.ltb_ge in Hcount. lia.
  - destruct H as [body' [user' [c [Hb [Hu [Hc Hne]]]]]].
    rewrite Hbody in Hb. rewrite Huser in Hu. inversion Hb; inversion Hu; subst.
    rewrite owned_by_other_false in Hown. apply Hne, Hown, Hc.
Qed.

(** ** The callbacks, run *)

Lemma finishWriter_run (w : Writer) (s : St) :
  finishWriter w s =
  (Return tt,
   {| chats := chats s; messages := messages s;
      assistantFullText := assistantFullText s;
      trace := trace s ++ finalizer_calls w |}).
Proof.
  unfold finishWriter, finalizer_calls, emit, ret.
  destruct (has_end w); [reflexivity|].
  destruct (has_close w); [reflexivity|].
  destruct (has_finish w); [reflexivity|].
  rewrite app_nil_r, St_eta. reflexivity.
Qed.

(** The three places where [execute] assigns the text, writes the delta
    and the end marker, and finishes the writer. *)
Lemma deliver_run (w : Writer) (msgId : string) (msg : jstr) (s : St) :
  (set_assistantFullText msg ;;
   emit (EvWrite (TextDelta msg msgId)) ;;
   emit (EvWrite (MessageEnd msgId)) ;;
   finishWriter w) s =
  (Return tt,
   {| chats := chats s; messages := messages s;
      assistantFullText := msg;
      trace := trace s ++ [EvWrite (TextDelta msg msgId); EvWrite (MessageEnd msgId)]
                       ++ finalizer_calls w |}).
Proof.
  unfold bind, set_assistantFullText, emit. rewrite finishWriter_run. cbn.
  rewrite <- !app_assoc. reflexivity.
Qed.

Lemma read_answer_run (data : json) (s : St) :
  read_answer data s =
  (match answer_of_json data with
   | Some a => Return a
   | None => Throw TypeError
   end, s).
Proof.
  unfold read_answer, answer_of_json, reply_keys, first_present, get_prop,
    bind, lift, coalesce, ret, throw.
  destruct data as [|b|repr fin|t|items|fields]; try reflexivity.
  destruct (lookup (u "output") fields) as [[]|];
    try (destruct (to_String _); reflexivity);
    (destruct (lookup (u "answer") fields) as [[]|];
     try (destruct (to_String _); reflexivity);
     (destruct (lookup (u "text") fields) as [[]|];
      try (destruct (to_String _); reflexivity);
      (destruct (lookup (u "message") fields) as [[]|];
       try (destruct (to_String _); reflexivity)))).
Qed.

Ltac run_handler :=
  unfold bind, try_catch, fetch, emit, set_assistantFullText, get_assistantFullText,
    saveMessages, saveChat, getChatById, getMessagesByChatId,
    getMessageCountByUserId, lift, ret, throw;
  cbn [fst snd chats messages assistantFullText trace].

Lemma execute_run (e : Env) (id model : string) (message : ChatMessage)
    (history : list ChatMessage) (user : User) (webhookUrl : string) (s : St) :
  execute e id model message history user webhookUrl s =
  (Return tt,
   {| chats := chats s; messages := messages s;
      assistantFullText := reply_of (fetch_outcome e);
      trace := trace s
               ++ stream_events e (webhook_request e id model message history user webhookUrl)
               ++ finalizer_calls (writer e) |}).
Proof.
  unfold execute, stream_events, reply_of, is_json_reply, parsed_body.
  unfold bind at 1. unfold emit at 1. unfold try_catch.
  unfold bind at 1. unfold fetch. unfold bind at 1. unfold emit at 1.
  destruct (fetch_outcome e) as [|res].
  - unfold throw. rewrite deliver_run. cbn. rewrite <- !app_assoc. reflexivity.
  - unfold ret at 1. destruct (ok res); cbn [negb].
    + unfold bind at 1.
      destruct (includes _ _).
      * rewrite read_answer_run.
        destruct (answer_of_json _) as [answer|];
          rewrite deliver_run; cbn; rewrite <- !app_assoc; reflexivity.
      * destruct (res_text res) as [t|]; [unfold ret at 1 | unfold throw at 1];
          rewrite deliver_run; cbn; rewrite <- !app_assoc; reflexivity.
    + rewrite deliver_run. cbn. rewrite <- !app_assoc. reflexivity.
Qed.

(** The rows [onFinish] writes, and the stream helper around the two
    callbacks. *)
Lemma onFinish_run (e : Env) (id : string) (s : St) :
  exists out,
    onFinish e id (map assistant_message (finished_messages e)) s =
    (out,
     {| chats := chats s;
        messages := messages s ++ List.concat (persisted_rows e id (assistantFullText s));
        assistantFullText := assistantFullText s;
        trace := trace s ++ map EvSaveMessages (persisted_rows e id (assistantFullText s)) |}).
Proof.
  unfold onFinish, try_catch, persisted_rows, finished_rows, fallback_row.
  destruct (persist_fails e).
  - unfold throw, bind, get_assistantFullText.
    destruct (truthy (assistantFullText s)).
    + destruct (fallback_fails e).
      * exists (Throw StoreError). cbn. rewrite ?app_nil_r, St_eta. reflexivity.
      * exists (Return tt). unfold saveMessages. cbn. rewrite ?app_nil_r. reflexivity.
    + exists (Return tt). unfold ret. cbn. rewrite ?app_nil_r, St_eta. reflexivity.
  - exists (Return tt). unfold saveMessages. cbn. rewrite ?app_nil_r, ?map_map. reflexivity.
Qed.

Lemma stream_helper_run (e : Env) (id : string) (exec : M unit) (s s1 : St) :
  exec s = (Return tt, s1) ->
  createUIMessageStream (finished_messages e) exec (onFinish e id) s =
  (Return tt,
   {| chats := chats s1;
      messages := messages s1 ++ List.concat (persisted_rows e id (assistantFullText s1));
      assistantFullText := assistantFullText s1;
      trace := trace s1 ++ map EvSaveMessages (persisted_rows e id (assistantFullText s1)) |}).
Proof.
  intros Hexec. unfold createUIMessageStream, try_catch, bind. rewrite Hexec.
  destruct (onFinish_run e id s1) as [out ->]. destruct out as [[]|]; reflexivity.
Qed.

Lemma persisted_rows_of_assistant (e : Env) (id : string) (t : jstr) :
  Forall (Forall (fun r => role r <> RUser)) (persisted_rows e id t).
Proof.
  unfold persisted_rows, finished_rows, fallback_row.
  destruct (persist_fails e).
  - destruct (truthy t); [|constructor].
    destruct (fallback_fails e); repeat constructor. cbn. discriminate.
  - constructor; [|constructor].
    induction (finished_messages e); cbn; constructor; auto. cbn. discriminate.
Qed.

(** ** [POST], run on a request that passes the guards *)

Lemma POST_admitted (tbl : UserType -> Entitlements) (e : Env) (s : St)
    (body : PostRequestBody) (user : User) :
  passes_guards tbl e s body user ->
  match configured (N8N_WEBHOOK_URL e) with
  | None =>
      POST tbl e s =
      (Return (ErrorResponse offline_chat),
       {| chats := chats s ++ created_chats s body user;
          messages := messages s ++ [user_row e body];
          assistantFullText := assistantFullText s;
          trace := trace s ++ admission_events e s body user |})
  | Some webhookUrl =>
      exists rows,
        POST tbl e s =
        (Return StreamResponse,
         {| chats := chats s ++ created_chats s body user;
            messages := (messages s ++ [user_row e body]) ++ List.concat rows;
            assistantFullText := reply_of (fetch_outcome e);
            trace := trace s ++ admission_events e s body user
                     ++ stream_events e (forwarded_request e s body user webhookUrl)
                     ++ finalizer_calls (writer e)
                     ++ map EvSaveMessages rows |})
        /\ rows = persisted_rows e (body_id body) (reply_of (fetch_outcome e))
  end.
Proof.
  intros (Hbody & Huser & Hcount & Hown).
  apply Z.ltb_ge in Hcount. apply owned_by_other_false in Hown.
  assert (Hguards :
    POST tbl e s =
    (match chat_of s (body_id body) with
     | None => saveChat (new_chat body user)
     | Some _ => ret tt
     end ;;
     saveMessages [user_row e body] ;;
     rows <- getMessagesByChatId (body_id body) ;;
     match configured (N8N_WEBHOOK_URL e) with
     | None => ret (ErrorResponse offline_chat)
     | Some webhookUrl =>
         set_assistantFullText [] ;;
         createUIMessageStream (finished_messages e)
           (execute e (body_id body) (selectedChatModel body) (body_message body)
              (convertToUIMessages rows ++ [body_message body]) user webhookUrl)
           (onFinish e (body_id body)) ;;
         ret StreamResponse
     end) s).
  { unfold POST. rewrite Hbody, Huser.
    unfold bind at 1. unfold getMessageCountByUserId at 1.
    change (now e - 24 * 60 * 60 * 1000)%Z with (window_start e).
    rewrite Hcount.
    unfold bind at 1. unfold getChatById at 1.
    change (find (fun c => String.eqb (chat_id c) (body_id body)) (chats s))
      with (chat_of s (body_id body)).
    rewrite Hown. reflexivity. }
  rewrite Hguards. clear Hguards.
  unfold admission_events, created_chats, forwarded_request, forwarded_history.
  destruct (chat_of s (body_id body)) as [c|];
    destruct (configured (N8N_WEBHOOK_URL e)) as [webhookUrl|].
  - eexists. split; [|reflexivity].
    run_handler. erewrite stream_helper_run by apply execute_run.
    cbn. rewrite ?app_nil_r, <- ?app_assoc. reflexivity.
  - run_handler. cbn. rewrite ?app_nil_r. reflexivity.
  - eexists. split; [|reflexivity].
    run_handler. erewrite stream_helper_run by apply execute_run.
    cbn. rewrite <- ?app_assoc. reflexivity.
  - run_handler. cbn. rewrite <- ?app_assoc. reflexivity.
Qed.

(** ** The text deltas written *)

Lemma deltas_app (a b : list Event) : deltas (a ++ b) = deltas a ++ deltas b.
Proof. unfold deltas. apply flat_map_app. Qed.

Lemma deltas_finalizer_calls (w : Writer) : deltas (finalizer_calls w) = [].
Proof.
  unfold finalizer_calls.
  destruct (has_end w), (has_close w), (has_finish w); reflexivity.
Qed.

Lemma deltas_saves (rows : list (list DBMessage)) : deltas (map EvSaveMessages rows) = [].
Proof. induction rows; cbn; auto. Qed.

Lemma deltas_admission (e : Env) (s : St) (body : PostRequestBody) (user : User) :
  deltas (admission_events e s body user) = [].
Proof.
  unfold admission_events, created_chats.
  destruct (chat_of s (body_id body)); reflexivity.
Qed.

Lemma execute_events (e : Env) (id model : string) (message : ChatMessage)
    (history : list ChatMessage) (user : User) (webhookUrl : string) (s : St) :
  events_of (execute e id model message history user webhookUrl) s =
  stream_events e (webhook_request e id model message history user webhookUrl)
  ++ finalizer_calls (writer e).
Proof. apply events_of_trace. rewrite execute_run. reflexivity. Qed.

Lemma execute_deltas (e : Env) (id model : string) (message : ChatMessage)
    (history : list ChatMessage) (user : User) (webhookUrl : string) (s : St) :
  deltas (events_of (execute e id model message history user webhookUrl) s) =
  [reply_of (fetch_outcome e)].
Proof.
  rewrite execute_events, deltas_app, deltas_finalizer_calls. reflexivity.
Qed.

Lemma POST_streams (tbl : UserType -> Entitlements) (e : Env) (s : St)
    (body : PostRequestBody) (user : User) (webhookUrl : string) :
  passes_guards tbl e s body user ->
  configured (N8N_WEBHOOK_URL e) = Some webhookUrl ->
  fst (POST tbl e s) = Return StreamResponse
  /\ deltas (events_of (POST tbl e) s) = [reply_of (fetch_outcome e)].
Proof.
  intros Hg Hurl. pose proof (POST_admitted Hg) as H. rewrite Hurl in H.
  destruct H as [rows [Hrun _]]. split.
  - rewrite Hrun. reflexivity.
  - erewrite events_of_trace by (rewrite Hrun; reflexivity).
    rewrite !deltas_app, deltas_admission, deltas_finalizer_calls, deltas_saves.
    reflexivity.
Qed.

Lemma no_user_rows (rows : list DBMessage) :
  Forall (fun r => role r <> RUser) rows ->
  existsb (fun r => Role_eqb (role r) RUser) rows = false.
Proof.
  induction 1 as [|r l Hr _ IH]; cbn; [reflexivity|].
  rewrite IH, orb_false_r. destruct (role r); try reflexivity. congruence.
Qed.

(** ** C2: the user's message is written once, before the webhook call *)

Lemma filter_user_rows_saves (rows : list (list DBMessage)) :
  Forall (Forall (fun r => role r <> RUser)) rows ->
  filter writes_user_row (map EvSaveMessages rows) = [].
Proof.
  induction 1 as [|l rows Hl _ IH]; cbn; [reflexivity|].
  rewrite (no_user_rows Hl). exact IH.
Qed.

Lemma filter_user_rows_finalizer (w : Writer) :
  filter writes_user_row (finalizer_calls w) = [].
Proof.
  unfold finalizer_calls. destruct (has_end w), (has_close w), (has_finish w); reflexivity.
Qed.

Lemma filter_user_rows_chats (cs : list Chat) :
  filter writes_user_row (map EvSaveChat cs) = [].
Proof. induction cs; cbn; auto. Qed.

Lemma filter_fetch_chats (cs : list Chat) : filter is_fetch (map EvSaveChat cs) = [].
Proof. induction cs; cbn; auto. Qed.

Lemma filter_fetch_rows (rows : list (list DBMessage)) :
  filter is_fetch (map EvSaveMessages rows) = [].
Proof. induction rows; cbn; auto. Qed.

Lemma filter_fetch_finalizer_calls (w : Writer) : filter is_fetch (finalizer_calls w) = [].
Proof.
  unfold finalizer_calls. destruct (has_end w), (has_close w), (has_finish w); reflexivity.
Qed.

(** C2. For a [POST] that passes the guards, the events of the request
    are [before ++ save :: after], where [save] writes one row: chat id
    and message id of the request, role user, the parts of the message,
    no attachments, the time of the request.  [before] holds no webhook
    call; the webhook call, when the endpoint is configured, is in
    [after]; [save] is the only event of the request that writes a row
    of a user turn.  The message table ends as the old table, this row,
    and rows that are not user turns, whatever the webhook call does. *)
Theorem user_message_saved_once_before_fetch
    (tbl : UserType -> Entitlements) (e : Env) (s : St)
    (body : PostRequestBody) (user : User) :
  passes_guards tbl e s body user ->
  exists before after rest,
    events_of (POST tbl e) s
    = before
      ++ EvSaveMessages
           [{| chatId := body_id body;
               message_id := msg_id (body_message body);
               role := RUser;
               parts := msg_parts (body_message body);
               attachments := [];
               createdAt := now e |}]
         :: after
    /\ filter is_fetch before = []
    /\ (forall webhookUrl, configured (N8N_WEBHOOK_URL e) = Some webhookUrl ->
        exists rq, filter is_fetch after = [EvFetch rq]
                   /\ url rq = webhookUrl
                   /\ p_message (payload rq) = body_message body)
    /\ filter writes_user_row (events_of (POST tbl e) s)
       = [EvSaveMessages
            [{| chatId := body_id body;
                message_id := msg_id (body_message body);
                role := RUser;
                parts := msg_parts (body_message body);
                attachments := [];
                createdAt := now e |}]]
    /\ messages (snd (POST tbl e s))
       = messages s
         ++ {| chatId := body_id body;
               message_id := msg_id (body_message body);
               role := RUser;
               parts := msg_parts (body_message body);
               attachments := [];
               createdAt := now e |}
            :: rest
    /\ Forall (fun r => role r <> RUser) rest.
Proof.
  intros Hg. pose proof (POST_admitted Hg) as H.
  exists (map EvSaveChat (created_chats s body user)).
  destruct (configured (N8N_WEBHOOK_URL e)) as [webhookUrl|].
  - destruct H as [rows [Hrun Hrows]].
    pose proof (persisted_rows_of_assistant e (body_id body) (reply_of (fetch_outcome e)))
      as Hassistant.
    rewrite <- Hrows in Hassistant.
    assert (Hev : events_of (POST tbl e) s
                  = map EvSaveChat (created_chats s body user)
                    ++ EvSaveMessages [user_row e body]
                       :: (stream_events e (forwarded_request e s body user webhookUrl)
                           ++ finalizer_calls (writer e) ++ map EvSaveMessages rows)).
    { apply events_of_trace. rewrite Hrun. cbn [snd trace].
      unfold admission_events. rewrite <- !app_assoc. reflexivity. }
    exists (stream_events e (forwarded_request e s body user webhookUrl)
            ++ finalizer_calls (writer e) ++ map EvSaveMessages rows).
    exists (List.concat rows).
    split; [exact Hev|]. split; [apply filter_fetch_chats|]. split; [|split; [|split]].
    + intros w Hw. inversion Hw; subst w.
      exists (forwarded_request e s body user webhookUrl).
      rewrite !filter_app, filter_fetch_finalizer_calls, filter_fetch_rows.
      repeat split.
    + rewrite Hev, filter_app, filter_user_rows_chats. cbn [app filter writes_user_row].
      cbn [existsb user_row role Role_eqb orb].
      rewrite !filter_app, filter_user_rows_finalizer,
        (filter_user_rows_saves Hassistant). reflexivity.
    + rewrite Hrun. cbn [snd messages]. rewrite <- app_assoc. reflexivity.
    + apply Forall_concat. exact Hassistant.
  - exists [], []. split; [|split; [|split; [|split; [|split]]]].
    + apply events_of_trace. rewrite H. reflexivity.
    + apply filter_fetch_chats.
    + intros w Hw. discriminate.
    + erewrite events_of_trace by (rewrite H; reflexivity).
      unfold admission_events. rewrite filter_app, filter_user_rows_chats. reflexivity.
    + rewrite H. reflexivity.
    + constructor.
Qed.

(** ** C4: a transport error is answered with the apology *)

Lemma output_channel_app (a b : list Event) :
  output_channel (a ++ b) = output_channel a ++ output_channel b.
Proof. unfold output_channel. apply flat_map_app. Qed.

Lemma output_channel_finalizer_calls (w : Writer) : output_channel (finalizer_calls w) = [].
Proof.
  unfold finalizer_calls. destruct (has_end w), (has_close w), (has_finish w); reflexivity.
Qed.

Lemma output_channel_saves (rows : list (list DBMessage)) :
  output_channel (map EvSaveMessages rows) = [].
Proof. induction rows; cbn; auto. Qed.

Lemma output_channel_admission (e : Env) (s : St) (body : PostRequestBody) (user : User) :
  output_channel (admission_events e s body user) = [].
Proof.
  unfold admission_events, created_chats. destruct (chat_of s (body_id body)); reflexivity.
Qed.

(** What a streamed request puts on the output channel. *)
Lemma POST_output_channel (tbl : UserType -> Entitlements) (e : Env) (s : St)
    (body : PostRequestBody) (user : User) (webhookUrl : string) :
  passes_guards tbl e s body user ->
  configured (N8N_WEBHOOK_URL e) = Some webhookUrl ->
  fst (POST tbl e s) = Return StreamResponse
  /\ output_channel (events_of (POST tbl e) s)
     = [MessageStart (msgId_uuid e) RAssistant;
        TextDelta (reply_of (fetch_outcome e)) (msgId_uuid e);
        MessageEnd (msgId_uuid e)]
  /\ In (EvFetch (forwarded_request e s body user webhookUrl)) (events_of (POST tbl e) s).
Proof.
  intros Hg Hurl. pose proof (POST_admitted Hg) as H. rewrite Hurl in H.
  destruct H as [rows [Hrun _]]. split; [rewrite Hrun; reflexivity|].
  erewrite events_of_trace by (rewrite Hrun; reflexivity). split.
  - rewrite !output_channel_app, output_channel_admission,
      output_channel_finalizer_calls, output_channel_saves. reflexivity.
  - apply in_or_app. right. apply in_or_app. left. right. left. reflexivity.
Qed.

(** C4. When [fetch] rejects, a [POST] that passed the guards (with the
    endpoint configured) does not end with the exception and does not
    answer with an error: it returns the streamed response, the call
    having been attempted, and the caller receives on the output channel
    the start of an assistant message, one text delta and the end of the
    message, the delta being the 45 code units of
    [Sorry - I couldn't reach the agent right now.] with the dash U+2014
    and the apostrophe U+2019 of the source. *)
Theorem transport_error_is_answered_with_apology
    (tbl : UserType -> Entitlements) (e : Env) (s : St)
    (body : PostRequestBody) (user : User) (webhookUrl : string) :
  passes_guards tbl e s body user ->
  configured (N8N_WEBHOOK_URL e) = Some webhookUrl ->
  fetch_outcome e = FetchThrows ->
  fst (POST tbl e s) = Return StreamResponse
  /\ output_channel (events_of (POST tbl e) s)
     = [MessageStart (msgId_uuid e) RAssistant;
        TextDelta
          [83; 111; 114; 114; 121; 32; 8212; 32; 73; 32; 99; 111; 117; 108;
          100; 110; 8217; 116; 32; 114; 101; 97; 99; 104; 32; 116; 104; 101;
          32; 97; 103; 101; 110; 116; 32; 114; 105; 103; 104; 116; 32; 110;
          111; 119; 46]%N
          (msgId_uuid e);
        MessageEnd (msgId_uuid e)]
  /\ In (EvFetch (forwarded_request e s body user webhookUrl)) (events_of (POST tbl e) s).
Proof.
  intros Hg Hurl Hfetch.
  destruct (POST_output_channel Hg Hurl) as (Hres & Hout & Hin).
  rewrite Hfetch in Hout. repeat split; assumption.
Qed.

(** ** C7: a non-success status *)

Lemma undigits_digits (d : Decimal.uint) : undigits (digits d) = Some d.
Proof. induction d; cbn [digits undigits]; [reflexivity | rewrite IHd; reflexivity ..]. Qed.

(** The text [decimal] gives denotes the number. *)
Lemma decimal_value_decimal (n : N) : decimal_value (decimal n) = Some n.
Proof.
  unfold decimal_value, decimal.
  destruct (digits (N.to_uint n)) as [|c r] eqn:Hd.
  - exfalso. destruct n as [|p]; cbn in Hd; [discriminate|].
    pose proof (DecimalPos.Unsigned.to_uint_nonnil p) as Hp.
    destruct (Pos.to_uint p); [congruence | discriminate ..].
  - rewrite <- Hd, undigits_digits. cbn. rewrite DecimalN.Unsigned.of_to. reflexivity.
Qed.

(** C7. When the endpoint answers with a status outside 200-299, a
    [POST] that passed the guards returns the streamed response and the
    caller receives the start of an assistant message, one text delta
    and the end of the message.  The delta is the body of the response
    when that is not empty; otherwise (empty or unreadable body) it is
    [Sorry - the workflow returned ] (with the dash U+2014), the status
    in decimal digits, a space, the status text and a full stop.  Nothing
    of the transport is delivered. *)
Theorem non_success_status_reply
    (tbl : UserType -> Entitlements) (e : Env) (s : St)
    (body : PostRequestBody) (user : User) (webhookUrl : string)
    (res : WorkflowResponse) :
  passes_guards tbl e s body user ->
  configured (N8N_WEBHOOK_URL e) = Some webhookUrl ->
  fetch_outcome e = FetchResponds res ->
  (status res < 200 \/ 299 < status res)%N ->
  fst (POST tbl e s) = Return StreamResponse
  /\ (forall t, res_text res = Some t -> t <> [] ->
      output_channel (events_of (POST tbl e) s)
      = [MessageStart (msgId_uuid e) RAssistant;
         TextDelta t (msgId_uuid e);
         MessageEnd (msgId_uuid e)])
  /\ (res_text res = Some [] \/ res_text res = None ->
      exists digits_of_status,
        decimal_value digits_of_status = Some (status res)
        /\ output_channel (events_of (POST tbl e) s)
           = [MessageStart (msgId_uuid e) RAssistant;
              TextDelta
                ([83; 111; 114; 114; 121; 32; 8212; 32; 116; 104; 101; 32;
                 119; 111; 114; 107; 102; 108; 111; 119; 32; 114; 101; 116;
                 117; 114; 110; 101; 100; 32]%N
                 ++ digits_of_status ++ [32%N] ++ statusText res ++ [46%N])
                (msgId_uuid e);
              MessageEnd (msgId_uuid e)]).
Proof.
  intros Hg Hurl Hfetch Hstatus.
  destruct (POST_output_channel Hg Hurl) as (Hres & Hout & _).
  assert (Hok : ok res = false).
  { unfold ok. destruct Hstatus as [H | H].
    - apply N.leb_gt in H. rewrite H. reflexivity.
    - apply N.leb_gt in H. rewrite H. apply andb_false_r. }
  rewrite Hfetch in Hout. unfold reply_of in Hout. rewrite Hok in Hout.
  split; [exact Hres|]. split.
  - intros t Ht Hne. rewrite Hout, Ht. destruct t; [congruence | reflexivity].
  - intros Hempty. exists (decimal (status res)).
    split; [apply decimal_value_decimal|].
    rewrite Hout. destruct Hempty as [-> | ->]; reflexivity.
Qed.

(** ** C8: the writer is finished on every path *)

(** C8. Whatever [fetch] does (a reply that is extracted, a non-success
    status, a rejection), [execute] returns normally and its last step
    is [finishWriter] on the writer: before that step the events of
    [execute] are chunk writes and the webhook call, ending with the end
    marker of the message, and the step itself calls the first of [end],
    [close], [finish] that the writer has (exactly one call when it has
    any of them). *)
Theorem execute_finishes_writer
    (e : Env) (id model : string) (message : ChatMessage)
    (history : list ChatMessage) (user : User) (webhookUrl : string) (s : St) :
  exists s_last writes,
    execute e id model message history user webhookUrl s
    = finishWriter (writer e) s_last
    /\ trace s_last = trace s ++ writes
    /\ Forall (fun ev => is_finalizer ev = false) writes
    /\ last writes EvEnd = EvWrite (MessageEnd (msgId_uuid e))
    /\ fst (execute e id model message history user webhookUrl s) = Return tt
    /\ events_of (finishWriter (writer e)) s_last = finalizer_calls (writer e)
    /\ (has_end (writer e) || has_close (writer e) || has_finish (writer e) = true ->
        exists call, finalizer_calls (writer e) = [call] /\ is_finalizer call = true).
Proof.
  exists {| chats := chats s; messages := messages s;
            assistantFullText := reply_of (fetch_outcome e);
            trace := trace s ++ stream_events e
                       (webhook_request e id model message history user webhookUrl) |}.
  exists (stream_events e (webhook_request e id model message history user webhookUrl)).
  repeat split.
  - rewrite execute_run, finishWriter_run. cbn. rewrite <- !app_assoc. reflexivity.
  - repeat constructor.
  - rewrite execute_run. reflexivity.
  - apply events_of_trace. rewrite finishWriter_run. reflexivity.
  - unfold finalizer_calls.
    destruct (has_end (writer e)); [intros _; eexists; split; reflexivity|].
    destruct (has_close (writer e)); [intros _; eexists; split; reflexivity|].
    destruct (has_finish (writer e)); [intros _; eexists; split; reflexivity|].
    discriminate.
Qed.

(** ** C10: deleting a conversation that does not exist *)

(** C10. For an authenticated caller, [DELETE] with a non-empty [id]
    that names no conversation returns [forbidden:chat] and leaves the
    state as it was. *)
Theorem DELETE_missing_chat_is_forbidden
    (e : Env) (s : St) (id : string) (user : User) :
  id <> EmptyString ->
  session_user e = Some user ->
  chat_of s id = None ->
  DELETE e (Some id) s = (Return (ErrorResponse forbidden_chat), s).
Proof.
  intros Hid Huser Hchat. unfold DELETE, configured.
  apply String.eqb_neq in Hid. rewrite Hid, Huser.
  unfold bind, getChatById. fold (chat_of s id). rewrite Hchat. reflexivity.
Qed.

(** ** The reply extracted from a success-status response *)

Lemma answer_of_json_not_null (data : json) :
  data <> JNull ->
  answer_of_json data =
  match to_String (match first_present reply_keys data with
                   | Some v => v
                   | None => JStr []
                   end) with
  | Some t => Some (or_else t (stringify data))
  | None => None
  end.
Proof. destruct data; [congruence | reflexivity ..]. Qed.

Lemma or_else_nonempty (t d : jstr) : t <> [] -> or_else t d = t.
Proof. destruct t; [congruence | reflexivity]. Qed.

(** X20. The text delta [execute] writes for a success-status response,
    with [data] the parsed body (the empty object when parsing fails):
    - JSON content type, [data] not [null], and [v] the value of the
      first of [output], [answer], [text], [message] that is neither
      missing nor [null]: [String(v)] when that is a non-empty string;
    - when there is no such key or [String(v)] is empty:
      [JSON.stringify(data)] (the placeholder
      [I didn't receive a reply from the agent.] if that were empty);
    - other content types: the body text, and the placeholder when the
      body text is empty;
    - when the extraction throws ([data] is [null], [String(v)] throws,
      or the body text cannot be read): the apology
      [Sorry - I couldn't reach the agent right now.] of the [catch]
      block. *)
Theorem success_reply_extraction
    (e : Env) (id model : string) (message : ChatMessage)
    (history : list ChatMessage) (user : User) (webhookUrl : string) (s : St)
    (res : WorkflowResponse) :
  fetch_outcome e = FetchResponds res ->
  ok res = true ->
  (is_json_reply res = true ->
     (forall v t,
        parsed_body res <> JNull ->
        first_present reply_keys (parsed_body res) = Some v ->
        to_String v = Some t -> t <> [] ->
        deltas (events_of (execute e id model message history user webhookUrl) s) = [t])
     /\ (parsed_body res <> JNull ->
         first_present reply_keys (parsed_body res) = None
         \/ (exists v, first_present reply_keys (parsed_body res) = Some v
                       /\ to_String v = Some []) ->
         deltas (events_of (execute e id model message history user webhookUrl) s)
         = [or_else (stringify (parsed_body res))
              [73; 32; 100; 105; 100; 110; 8217; 116; 32; 114; 101; 99; 101;
              105; 118; 101; 32; 97; 32; 114; 101; 112; 108; 121; 32; 102;
              114; 111; 109; 32; 116; 104; 101; 32; 97; 103; 101; 110; 116;
              46]%N])
     /\ (parsed_body res = JNull
         \/ (exists v, first_present reply_keys (parsed_body res) = Some v
                       /\ to_String v = None) ->
         deltas (events_of (execute e id model message history user webhookUrl) s)
         = [[83; 111; 114; 114; 121; 32; 8212; 32; 73; 32; 99; 111; 117; 108;
            100; 110; 8217; 116; 32; 114; 101; 97; 99; 104; 32; 116; 104; 101;
            32; 97; 103; 101; 110; 116; 32; 114; 105; 103; 104; 116; 32; 110;
            111; 119; 46]%N]))
  /\ (is_json_reply res = false ->
      (forall t, res_text res = Some t -> t <> [] ->
         deltas (events_of (execute e id model message history user webhookUrl) s) = [t])
      /\ (res_text res = Some [] ->
          deltas (events_of (execute e id model message history user webhookUrl) s)
          = [[73; 32; 100; 105; 100; 110; 8217; 116; 32; 114; 101; 99; 101;
            105; 118; 101; 32; 97; 32; 114; 101; 112; 108; 121; 32; 102; 114;
            111; 109; 32; 116; 104; 101; 32; 97; 103; 101; 110; 116; 46]%N])
      /\ (res_text res = None ->
          deltas (events_of (execute e id model message history user webhookUrl) s)
          = [[83; 111; 114; 114; 121; 32; 8212; 32; 73; 32; 99; 111; 117; 108;
            100; 110; 8217; 116; 32; 114; 101; 97; 99; 104; 32; 116; 104; 101;
            32; 97; 103; 101; 110; 116; 32; 114; 105; 103; 104; 116; 32; 110;
            111; 119; 46]%N])).
Proof.
  intros Hfetch Hok. rewrite execute_deltas, Hfetch.
  unfold reply_of. rewrite Hok. split; intros Hjson; rewrite Hjson.
  - repeat split.
    + intros v t Hdata Hv Ht Hne.
      rewrite (answer_of_json_not_null Hdata), Hv, Ht.
      rewrite !(or_else_nonempty _ Hne). reflexivity.
    + intros Hdata [Hv | [v [Hv Ht]]]; rewrite (answer_of_json_not_null Hdata), Hv.
      * reflexivity.
      * rewrite Ht. reflexivity.
    + intros [Hnull | [v [Hv Ht]]].
      * rewrite Hnull. reflexivity.
      * destruct (parsed_body res) eqn:Hdata; [reflexivity | ..];
          rewrite answer_of_json_not_null by discriminate; rewrite Hv, Ht; reflexivity.
  - repeat split.
    + intros t -> Hne. rewrite (or_else_nonempty _ Hne). reflexivity.
    + intros ->. reflexivity.
    + intros ->. reflexivity.
Qed.

(** ** C9: the rate limit is strict *)

Lemma find_app_first {A} (f : A -> bool) (l l' : list A) :
  find f (l ++ l') = match find f l with Some x => Some x | None => find f l' end.
Proof. induction l as [|x l IH]; cbn; [reflexivity|]. destruct (f x); auto. Qed.

Lemma owned_by_grows (uid : string) (cs extra : list Chat) (id : string) :
  owned_by uid cs id = true -> owned_by uid (cs ++ extra) id = true.
Proof.
  unfold owned_by. rewrite find_app_first.
  destruct (find _ cs); [auto | discriminate].
Qed.

Lemma filter_length_le {A} (f g : A -> bool) (l : list A) :
  (forall x, f x = true -> g x = true) ->
  (List.length (filter f l) <= List.length (filter g l))%nat.
Proof.
  intros Hfg. induction l as [|x l IH]; cbn; [lia|].
  destruct (f x) eqn:Hf.
  - rewrite (Hfg x Hf). cbn. lia.
  - destruct (g x); cbn; lia.
Qed.

(** A state that extends the tables of [s] with a row counted for the
    user has a larger count. *)
Lemma message_count_grows (uid : string) (since : Z) (s s' : St)
    (extra : list Chat) (row : DBMessage) (more : list DBMessage) :
  chats s' = chats s ++ extra ->
  messages s' = messages s ++ row :: more ->
  sent_since uid since (chats s') row = true ->
  (message_count uid since s + 1 <= message_count uid since s')%Z.
Proof.
  intros Hc Hm Hrow. unfold message_count. rewrite Hm, filter_app, length_app.
  cbn [filter]. rewrite Hrow. cbn [List.length].
  assert (List.length (filter (sent_since uid since (chats s)) (messages s))
          <= List.length (filter (sent_since uid since (chats s')) (messages s)))%nat.
  { apply filter_length_le. intros m. unfold sent_since. rewrite Hc.
    rewrite !andb_true_iff. intros [[Hr Ht] Ho].
    repeat split; auto. now apply owned_by_grows. }
  lia.
Qed.

Lemma user_row_counts (tbl : UserType -> Entitlements) (e : Env) (s : St)
    (body : PostRequestBody) (user : User) :
  (forall c, chat_of s (body_id body) = Some c -> userId c = user_id user) ->
  sent_since (user_id user) (window_start e)
    (chats s ++ created_chats s body user) (user_row e body) = true.
Proof.
  intros Hown. unfold sent_since, user_row, window_start. cbn.
  replace (now e - 86400000 <=? now e)%Z with true by (symmetry; apply Z.leb_le; lia).
  cbn. unfold owned_by, created_chats. rewrite find_app_first.
  fold (chat_of s (body_id body)).
  destruct (chat_of s (body_id body)) as [c|] eqn:Hc.
  - rewrite (Hown c eq_refl). apply String.eqb_refl.
  - cbn. rewrite !String.eqb_refl. reflexivity.
Qed.

(** C9. For a valid, authenticated request, [POST] answers
    [rate_limit:chat] exactly when the caller's count over the trailing
    24 hours is strictly greater than [maxMessagesPerDay] of the tier.
    With the count equal to the quota (and the conversation absent or
    owned by the caller) the message is written, and the count then
    exceeds the quota. *)
Theorem rate_limit_rejects_only_above_quota
    (tbl : UserType -> Entitlements) (e : Env) (s : St)
    (body : PostRequestBody) (user : User) :
  request_body e = Some body ->
  session_user e = Some user ->
  (fst (POST tbl e s) = Return (ErrorResponse rate_limit_chat)
   <-> (maxMessagesPerDay (tbl (user_type user))
        < message_count (user_id user) (window_start e) s)%Z)
  /\ (message_count (user_id user) (window_start e) s
      = maxMessagesPerDay (tbl (user_type user)) ->
      (forall c, chat_of s (body_id body) = Some c -> userId c = user_id user) ->
      fst (POST tbl e s) <> Return (ErrorResponse rate_limit_chat)
      /\ In (user_row e body) (messages (snd (POST tbl e s)))
      /\ (maxMessagesPerDay (tbl (user_type user))
          < message_count (user_id user) (window_start e) (snd (POST tbl e s)))%Z).
Proof.
  intros Hbody Huser.
  assert (Hadmitted :
    (message_count (user_id user) (window_start e) s
     <= maxMessagesPerDay (tbl (user_type user)))%Z ->
    (forall c, chat_of s (body_id body) = Some c -> userId c = user_id user) ->
    fst (POST tbl e s) <> Return (ErrorResponse rate_limit_chat)
    /\ In (user_row e body) (messages (snd (POST tbl e s)))
    /\ (message_count (user_id user) (window_start e) s + 1
        <= message_count (user_id user) (window_start e) (snd (POST tbl e s)))%Z).
  { intros Hcount Hown.
    assert (Hg : passes_guards tbl e s body user) by (repeat split; assumption).
    pose proof (POST_admitted Hg) as H.
    pose proof (user_row_counts tbl e s body user Hown) as Hrow.
    destruct (configured (N8N_WEBHOOK_URL e)) as [webhookUrl|].
    - destruct H as [rows [Hrun _]]. rewrite Hrun. cbn [fst snd messages].
      repeat split.
      + discriminate.
      + apply in_or_app. left. apply in_or_app. right. left. reflexivity.
      + eapply message_count_grows with (row := user_row e body).
        * reflexivity.
        * cbn [messages]. rewrite <- app_assoc. reflexivity.
        * exact Hrow.
    - rewrite H. cbn [fst snd messages]. repeat split.
      + discriminate.
      + apply in_or_app. right. left. reflexivity.
      + eapply message_count_grows with (row := user_row e body) (more := []).
        * reflexivity.
        * reflexivity.
        * exact Hrow. }
  split.
  - split.
    + intros Hres.
      destruct (Z.lt_ge_cases (maxMessagesPerDay (tbl (user_type user)))
                  (message_count (user_id user) (window_start e) s)) as [Hlt | Hge];
        [exact Hlt | exfalso].
      destruct (owned_by_other (chat_of s (body_id body)) user) eqn:Hown.
      * revert Hres. unfold POST. rewrite Hbody, Huser.
        unfold bind, getMessageCountByUserId, getChatById. cbn [fst snd].
        change (now e - 24 * 60 * 60 * 1000)%Z with (window_start e).
        apply Z.ltb_ge in Hge. rewrite Hge.
        fold (chat_of s (body_id body)). rewrite Hown. cbn. discriminate.
      * pose proof (proj1 (owned_by_other_false _ _) Hown) as Hmine.
        destruct (Hadmitted Hge Hmine) as [Hne _]. exact (Hne Hres).
    + intros Hlt. unfold POST. rewrite Hbody, Huser.
      unfold bind, getMessageCountByUserId. cbn [fst snd].
      change (now e - 24 * 60 * 60 * 1000)%Z with (window_start e).
      apply Z.ltb_lt in Hlt. rewrite Hlt. reflexivity.
  - intros Heq Hown.
    destruct (Hadmitted (Z.eq_le_incl _ _ Heq) Hown) as (Hne & Hin & Hgrow).
    repeat split; try assumption. lia.
Qed.

(** ** C5: the history sent to the workflow *)

Lemma insert_by_createdAt_In (m x : DBMessage) (l : list DBMessage) :
  In x (insert_by_createdAt m l) <-> x = m \/ In x l.
Proof.
  induction l as [|y l IH]; cbn.
  - intuition.
  - destruct (createdAt m <=? createdAt y)%Z; cbn; [intuition|].
    rewrite IH. intuition.
Qed.

Lemma sort_by_createdAt_In (x : DBMessage) (l : list DBMessage) :
  In x (sort_by_createdAt l) <-> In x l.
Proof.
  induction l as [|y l IH]; cbn; [reflexivity|].
  rewrite insert_by_createdAt_In, IH. intuition.
Qed.

(** In [route.ts] the stored messages are read after the user's row is
    written, so the row comes back from the store and the message is
    appended once more. *)
Lemma forwarded_history_repeats_new_message (e : Env) (s : St) (body : PostRequestBody) :
  exists l1 l2,
    forwarded_history e s body
    = l1 ++ convert_row (user_row e body) :: l2 ++ [body_message body]
    /\ msg_id (convert_row (user_row e body)) = msg_id (body_message body).
Proof.
  assert (Hin : In (convert_row (user_row e body))
                  (convertToUIMessages
                     (messages_of_chat (body_id body) (messages s ++ [user_row e body])))).
  { unfold convertToUIMessages, messages_of_chat. apply in_map.
    apply sort_by_createdAt_In, filter_In. split.
    - apply in_or_app. right. left. reflexivity.
    - cbn. apply String.eqb_refl. }
  apply in_split in Hin. destruct Hin as [l1 [l2 Heq]].
  exists l1, l2. split; [|reflexivity].
  unfold forwarded_history. rewrite Heq, <- app_assoc. reflexivity.
Qed.

Lemma occurrences_app (id : string) (a b : list ChatMessage) :
  occurrences id (a ++ b) = (occurrences id a + occurrences id b)%nat.
Proof. unfold occurrences. now rewrite filter_app, length_app. Qed.

Lemma forwarded_history_occurrences (e : Env) (s : St) (body : PostRequestBody) :
  (2 <= occurrences (msg_id (body_message body)) (forwarded_history e s body))%nat.
Proof.
  destruct (forwarded_history_repeats_new_message e s body) as [l1 [l2 [-> Hid]]].
  rewrite occurrences_app. cbn [app].
  change (convert_row (user_row e body) :: l2 ++ [body_message body])
    with ([convert_row (user_row e body)] ++ l2 ++ [body_message body]).
  rewrite !occurrences_app. unfold occurrences at 2 4. cbn [filter].
  rewrite Hid, String.eqb_refl. cbn. lia.
Qed.

(** The drafts read the history first: a message whose id is new to the
    store is forwarded once. *)
Lemma draft_history_occurrences (s : St) (body : PostRequestBody) :
  (forall m, In m (messages s) -> message_id m <> msg_id (body_message body)) ->
  occurrences (msg_id (body_message body)) (Drafts.uiHistory s body) = 1%nat.
Proof.
  intros Hnew. unfold Drafts.uiHistory. rewrite occurrences_app.
  unfold occurrences at 2. cbn [filter]. rewrite String.eqb_refl. cbn [List.length].
  assert (H0 : occurrences (msg_id (body_message body))
                 (convertToUIMessages (messages_of_chat (body_id body) (messages s))) = 0%nat).
  { unfold occurrences, convertToUIMessages, messages_of_chat.
    apply length_zero_iff_nil.
    destruct (filter _ (map convert_row _)) as [|m l] eqn:Hf; [reflexivity|].
    assert (Hm : In m (m :: l)) by (left; reflexivity).
    rewrite <- Hf in Hm. apply filter_In in Hm. destruct Hm as [Hin Heq].
    apply in_map_iff in Hin. destruct Hin as [r [<- Hr]].
    apply sort_by_createdAt_In, filter_In in Hr. destruct Hr as [Hr _].
    apply String.eqb_eq in Heq. exfalso. exact (Hnew r Hr Heq). }
  rewrite H0. reflexivity.
Qed.

(** C5 (the code departs from it). On the first message [hi] of a new
    conversation, the one webhook call of [POST] carries the history
    [hi; hi]: the new message occurs twice, where the drafts send it
    once. *)
Theorem new_message_is_forwarded_twice :
  filter is_fetch
    (events_of (POST sample_table (first_post hi (FetchResponds answer_42))) empty_store)
  = [EvFetch
       {| url := "https://n8n.example/webhook";
          authorization := None;
          payload := {| p_chatId := "c1"; p_model := "chat-model"; p_message := hi;
                        p_history := [hi; hi]; p_user := alice |} |}]
  /\ occurrences "m1" [hi; hi] = 2%nat
  /\ Drafts.uiHistory empty_store (sample_body hi) = [hi].
Proof. repeat split; reflexivity. Qed.

(** ** C6: the chat created for a new conversation *)

Lemma POST_creates_chat (tbl : UserType -> Entitlements) (e : Env) (s : St)
    (body : PostRequestBody) (user : User) :
  passes_guards tbl e s body user ->
  chats (snd (POST tbl e s)) = chats s ++ created_chats s body user
  /\ (chat_of s (body_id body) = None ->
      created_chats s body user = [new_chat body user]
      /\ userId (new_chat body user) = user_id user
      /\ chat_id (new_chat body user) = body_id body).
Proof.
  intros Hg. pose proof (POST_admitted Hg) as H. split.
  - destruct (configured (N8N_WEBHOOK_URL e)).
    + destruct H as [rows [-> _]]. reflexivity.
    + rewrite H. reflexivity.
  - intros Hnone. unfold created_chats. rewrite Hnone. repeat split.
Qed.

Lemma split_ws_from_words (cur : jstr) (in_ws : bool) (s : jstr) :
  is_word cur -> Forall is_word (split_ws_from cur in_ws s).
Proof.
  revert cur in_ws. induction s as [|c r IH]; intros cur in_ws Hcur; cbn.
  - constructor; [|constructor]. apply Forall_rev. exact Hcur.
  - destruct (is_ws c) eqn:Hc.
    + destruct in_ws.
      * apply IH. exact Hcur.
      * constructor; [apply Forall_rev; exact Hcur|]. apply IH. constructor.
    + apply IH. constructor; assumption.
Qed.

Lemma Forall_firstn_of {A} (P : A -> Prop) (n : nat) (l : list A) :
  Forall P l -> Forall P (firstn n l).
Proof.
  intros H. rewrite <- (firstn_skipn n l) in H. apply Forall_app in H. tauto.
Qed.

(** The title of [route.ts] is the fallback or at most eight words
    joined by single spaces. *)
Lemma title_has_at_most_eight_words (msg : ChatMessage) (fallback : jstr) :
  Route.makeTitleFromMessage msg fallback = fallback
  \/ exists words,
       Route.makeTitleFromMessage msg fallback = join (u " ") words
       /\ (List.length words <= 8)%nat
       /\ Forall is_word words.
Proof.
  unfold Route.makeTitleFromMessage.
  match goal with
  | |- context [match ?ft with Some t => if truthy t then _ else _ | None => fallback end] =>
      destruct ft as [t|]; [|left; reflexivity]
  end.
  destruct (truthy t); [|left; reflexivity].
  unfold or_else.
  destruct (truthy (join (u " ") (slice0 8 (split_ws (trim t))))); [|left; reflexivity].
  right. exists (slice0 8 (split_ws (trim t))). repeat split.
  - unfold slice0. apply firstn_le_length.
  - unfold slice0, split_ws. apply Forall_firstn_of, split_ws_from_words. constructor.
Qed.

(** The drafts clip the title to 80 code units. *)
Lemma draft_title_is_clipped (msg : ChatMessage) (fallback : jstr) :
  Drafts.makeTitleFromMessage msg fallback = fallback
  \/ (List.length (Drafts.makeTitleFromMessage msg fallback) <= 80)%nat.
Proof.
  unfold Drafts.makeTitleFromMessage.
  match goal with
  | |- context [match ?ft with Some t => if truthy t then _ else _ | None => fallback end] =>
      destruct ft as [t|]; [|left; reflexivity]
  end.
  destruct (truthy t); [|left; reflexivity].
  cbv zeta. unfold or_else.
  match goal with |- context [truthy ?c] => destruct (truthy c); [|left; reflexivity] end.
  right. destruct (Nat.ltb_spec 80 (List.length (join (u " ") (slice0 8 (split_ws (trim t)))))).
  - rewrite length_firstn. lia.
  - lia.
Qed.

(** C6 (the code departs from it). For the first message of a new
    conversation whose text is one word of 81 letters, [POST] creates
    exactly one chat, owned by the caller, and its title is the whole
    word: 81 code units, not at most 80.  The drafts clip the same title
    to 80.  A message without a text part (an image only) does not get
    the default title either, but [String(parts[0])]. *)
Theorem title_is_not_clipped_to_80 :
  chats (snd (POST sample_table (first_post long_word_message FetchThrows) empty_store))
  = [{| chat_id := "c1"; userId := "alice"; title := long_word; visibility := Private |}]
  /\ List.length long_word = 81%nat
  /\ Drafts.makeTitleFromMessage long_word_message (u "New chat") = repeat 97%N 80
  /\ Route.makeTitleFromMessage image_message (u "New chat") = u "[object Object]".
Proof. repeat split; reflexivity. Qed.

(** ** The theorems at sample requests *)

(** Each rejection, run. *)
Example POST_invalid_body :
  POST sample_table (sample_env None (Some alice) FetchThrows) bobs_store
  = (Return (ErrorResponse bad_request_api), bobs_store).
Proof. reflexivity. Qed.

Example POST_without_session :
  POST sample_table (sample_env (Some (sample_body hi)) None FetchThrows) bobs_store
  = (Return (ErrorResponse unauthorized_chat), bobs_store).
Proof. reflexivity. Qed.

Example POST_over_quota :
  POST sample_table
    (sample_env (Some (sample_body hi)) (Some {| user_id := "alice"; user_type := guest |})
       FetchThrows) full_store
  = (Return (ErrorResponse rate_limit_chat), full_store).
Proof. reflexivity. Qed.

Example POST_foreign_chat :
  POST sample_table (first_post hi FetchThrows) bobs_store
  = (Return (ErrorResponse forbidden_chat), bobs_store).
Proof. reflexivity. Qed.

(** C1 at a request of alice for a conversation of bob. *)
Lemma POST_rejection_has_no_effect_witness :
  exists code,
    POST sample_table (first_post hi FetchThrows) bobs_store
    = (Return (ErrorResponse code), bobs_store)
    /\ reported_failure sample_table code (first_post hi FetchThrows) bobs_store
    /\ code <> offline_chat.
Proof.
  apply (@POST_rejection_has_no_effect sample_table (first_post hi FetchThrows) bobs_store).
  right. right. right.
  exists (sample_body hi), alice,
    {| chat_id := "c1"; userId := "bob"; title := u "Bob"; visibility := Private |}.
  repeat split; try reflexivity. discriminate.
Defined.

Lemma first_post_passes_guards (m : ChatMessage) (f : FetchOutcome) :
  passes_guards sample_table (first_post m f) empty_store (sample_body m) alice.
Proof.
  repeat split; try reflexivity.
  - cbn. lia.
  - intros c Hc. discriminate.
Defined.

(** C2 at the first message of a new conversation, with the webhook
    unreachable. *)
Lemma user_message_saved_once_before_fetch_witness :
  exists before after rest,
    events_of (POST sample_table (first_post hi FetchThrows)) empty_store
    = before
      ++ EvSaveMessages
           [{| chatId := "c1"; message_id := "m1"; role := RUser;
               parts := [JObj [([116; 121; 112; 101]%N, JStr [116; 101; 120; 116]%N);
                               ([116; 101; 120; 116]%N, JStr [104; 105]%N)]];
               attachments := []; createdAt := 1700000000000 |}]
         :: after
    /\ filter is_fetch before = []
    /\ (forall webhookUrl,
          configured (N8N_WEBHOOK_URL (first_post hi FetchThrows)) = Some webhookUrl ->
          exists rq, filter is_fetch after = [EvFetch rq]
                     /\ url rq = webhookUrl
                     /\ p_message (payload rq) = hi)
    /\ filter writes_user_row
         (events_of (POST sample_table (first_post hi FetchThrows)) empty_store)
       = [EvSaveMessages
            [{| chatId := "c1"; message_id := "m1"; role := RUser;
                parts := [JObj [([116; 121; 112; 101]%N, JStr [116; 101; 120; 116]%N);
                                ([116; 101; 120; 116]%N, JStr [104; 105]%N)]];
                attachments := []; createdAt := 1700000000000 |}]]
    /\ messages (snd (POST sample_table (first_post hi FetchThrows) empty_store))
       = messages empty_store
         ++ {| chatId := "c1"; message_id := "m1"; role := RUser;
               parts := [JObj [([116; 121; 112; 101]%N, JStr [116; 101; 120; 116]%N);
                               ([116; 101; 120; 116]%N, JStr [104; 105]%N)]];
               attachments := []; createdAt := 1700000000000 |}
            :: rest
    /\ Forall (fun r => role r <> RUser) rest.
Proof.
  exact (@user_message_saved_once_before_fetch sample_table (first_post hi FetchThrows)
           empty_store (sample_body hi) alice (first_post_passes_guards hi FetchThrows)).
Defined.

(** C4 at the same request. *)
Lemma transport_error_is_answered_with_apology_witness :
  fst (POST sample_table (first_post hi FetchThrows) empty_store) = Return StreamResponse
  /\ output_channel (events_of (POST sample_table (first_post hi FetchThrows)) empty_store)
     = [MessageStart "uuid-1" RAssistant;
        TextDelta
          [83; 111; 114; 114; 121; 32; 8212; 32; 73; 32; 99; 111; 117; 108;
          100; 110; 8217; 116; 32; 114; 101; 97; 99; 104; 32; 116; 104; 101;
          32; 97; 103; 101; 110; 116; 32; 114; 105; 103; 104; 116; 32; 110;
          111; 119; 46]%N
          "uuid-1";
        MessageEnd "uuid-1"]
  /\ In (EvFetch (forwarded_request (first_post hi FetchThrows) empty_store
                    (sample_body hi) alice "https://n8n.example/webhook"))
        (events_of (POST sample_table (first_post hi FetchThrows)) empty_store).
Proof.
  exact (@transport_error_is_answered_with_apology sample_table
           (first_post hi FetchThrows) empty_store (sample_body hi) alice
           "https://n8n.example/webhook"
           (first_post_passes_guards hi FetchThrows) eq_refl eq_refl).
Defined.

(** C7 at a 503 without a body: the caller receives
    [Sorry - the workflow returned 503 Service Unavailable.] *)
Lemma non_success_status_reply_witness :
  exists digits_of_status,
    decimal_value digits_of_status = Some 503%N
    /\ output_channel
         (events_of (POST sample_table (first_post hi (FetchResponds unavailable)))
            empty_store)
       = [MessageStart "uuid-1" RAssistant;
          TextDelta
            ([83; 111; 114; 114; 121; 32; 8212; 32; 116; 104; 101; 32; 119;
             111; 114; 107; 102; 108; 111; 119; 32; 114; 101; 116; 117; 114;
             110; 101; 100; 32]%N
             ++ digits_of_status ++ [32%N]
             ++ [83; 101; 114; 118; 105; 99; 101; 32; 85; 110; 97; 118; 97; 105;
                 108; 97; 98; 108; 101]%N ++ [46%N])
            "uuid-1";
          MessageEnd "uuid-1"].
Proof.
  exact (proj2 (proj2
    (@non_success_status_reply sample_table
       (first_post hi (FetchResponds unavailable)) empty_store (sample_body hi) alice
       "https://n8n.example/webhook" unavailable
       (first_post_passes_guards hi (FetchResponds unavailable)) eq_refl eq_refl
       (or_intror (eq_refl : (299 ?= 503)%N = Lt))))
    (or_introl eq_refl)).
Defined.

(** C3. The claim fails on a success-status JSON reply whose body is
    [null].  The response has status 200, content type
    [application/json] and the body [null]; the words of the claim give
    the serialization of the body, the four code units of [null], which
    is what [JSON.stringify(data)] returns and what the
    [extractAssistantText] of the buffering draft answers on the same
    response.  In [route.ts] reading [data.output] throws before the
    fallback [|| JSON.stringify(data)] is reached, and the caller
    receives the apology of the [catch] block, the text of a transport
    failure, although the endpoint answered. *)
Theorem null_json_body_misses_the_serialization_fallback :
  let res :=
    {| status := 200; statusText := [79; 75]%N;
       content_type := Some [97; 112; 112; 108; 105; 99; 97; 116; 105; 111;
          110; 47; 106; 115; 111; 110]%N;
       res_text := Some [110; 117; 108; 108]%N; res_json := Some JNull |} in
  ok res = true
  /\ is_json_reply res = true
  /\ stringify JNull = [110; 117; 108; 108]%N
  /\ reply_as_claimed res = Some [110; 117; 108; 108]%N
  /\ Buffered.extractAssistantText res None = inr (JStr [110; 117; 108; 108]%N)
  /\ fst (POST sample_table (first_post hi (FetchResponds res)) empty_store)
     = Return StreamResponse
  /\ output_channel
       (events_of (POST sample_table (first_post hi (FetchResponds res))) empty_store)
     = [MessageStart "uuid-1" RAssistant;
        TextDelta
          [83; 111; 114; 114; 121; 32; 8212; 32; 73; 32; 99; 111; 117; 108;
          100; 110; 8217; 116; 32; 114; 101; 97; 99; 104; 32; 116; 104; 101;
          32; 97; 103; 101; 110; 116; 32; 114; 105; 103; 104; 116; 32; 110;
          111; 119; 46]%N
          "uuid-1";
        MessageEnd "uuid-1"].
Proof.
  intros res. do 5 (split; [reflexivity|]).
  destruct (@POST_output_channel sample_table (first_post hi (FetchResponds res))
              empty_store (sample_body hi) alice "https://n8n.example/webhook"
              (first_post_passes_guards hi (FetchResponds res)) eq_refl)
    as (Hres & Hout & _).
  split; [exact Hres | exact Hout].
Qed.

(** X20 at the two replies the specification names: for the JSON body
    [{"answer": "42"}] the delta written is [42], for the plain text
    [hello] it is [hello]. *)
Lemma success_reply_extraction_witness :
  deltas (events_of
            (execute (first_post hi (FetchResponds answer_42))
               "c1" "chat-model" hi [hi] alice "https://n8n.example/webhook")
            empty_store)
  = [u "42"]
  /\ deltas (events_of
               (execute (first_post hi (FetchResponds hello_text))
                  "c1" "chat-model" hi [hi] alice "https://n8n.example/webhook")
               empty_store)
     = [u "hello"].
Proof.
  split.
  - apply (proj1 (proj1
      (@success_reply_extraction (first_post hi (FetchResponds answer_42))
         "c1" "chat-model" hi [hi] alice "https://n8n.example/webhook" empty_store
         answer_42 eq_refl eq_refl) eq_refl) (JStr (u "42")) (u "42"));
      try reflexivity; discriminate.
  - apply (proj1 (proj2
      (@success_reply_extraction (first_post hi (FetchResponds hello_text))
         "c1" "chat-model" hi [hi] alice "https://n8n.example/webhook" empty_store
         hello_text eq_refl eq_refl) eq_refl) (u "hello"));
      try reflexivity; discriminate.
Defined.

(** C9 at a caller who has sent exactly her quota of three messages. *)
Lemma rate_limit_rejects_only_above_quota_witness :
  message_count "alice" (window_start (first_post hi FetchThrows)) full_store = 3%Z
  /\ fst (POST sample_table (first_post hi FetchThrows) full_store)
     <> Return (ErrorResponse rate_limit_chat)
  /\ In (user_row (first_post hi FetchThrows) (sample_body hi))
        (messages (snd (POST sample_table (first_post hi FetchThrows) full_store)))
  /\ (3 < message_count "alice" (window_start (first_post hi FetchThrows))
            (snd (POST sample_table (first_post hi FetchThrows) full_store)))%Z.
Proof.
  split; [reflexivity|].
  apply (proj2
    (@rate_limit_rejects_only_above_quota sample_table (first_post hi FetchThrows)
       full_store (sample_body hi) alice eq_refl eq_refl)).
  - reflexivity.
  - intros c Hc. cbn in Hc. inversion Hc. reflexivity.
Defined.

(** C10 at an id that names no conversation. *)
Lemma DELETE_missing_chat_is_forbidden_witness :
  DELETE (first_post hi FetchThrows) (Some "no-such-chat") bobs_store
  = (Return (ErrorResponse forbidden_chat), bobs_store).
Proof.
  apply (@DELETE_missing_chat_is_forbidden (first_post hi FetchThrows) bobs_store
           "no-such-chat" alice); try reflexivity. discriminate.
Defined.

(** The sibling outcomes of [DELETE]. *)
Example DELETE_own_chat :
  DELETE (first_post hi FetchThrows) (Some "c1") full_store
  = (Return (JsonResponse
               (Some {| chat_id := "c1"; userId := "alice"; title := u "hi";
                        visibility := Private |}) 200),
     {| chats := []; messages := []; assistantFullText := [];
        trace := [EvDeleteChat "c1"] |}).
Proof. reflexivity. Qed.

Example DELETE_without_id :
  DELETE (first_post hi FetchThrows) None bobs_store
  = (Return (ErrorResponse bad_request_api), bobs_store).
Proof. reflexivity. Qed.

(** The reply for further bodies. *)
Example unparseable_json_gives_empty_object :
  written_for (FetchResponds unparseable_json) = [u "{}"].
Proof. reflexivity. Qed.

Example empty_output_gives_serialization :
  written_for (FetchResponds (json_reply empty_output)) = [stringify empty_output].
Proof. reflexivity. Qed.

Example null_output_is_passed_over :
  written_for (FetchResponds (json_reply null_output)) = [u "42"].
Proof. reflexivity. Qed.

Example empty_text_gives_placeholder :
  written_for (FetchResponds (response 200 "OK" (Some "text/plain") (Some []) None))
  = [no_reply].
Proof. reflexivity. Qed.

Example unreadable_text_gives_apology :
  written_for (FetchResponds (response 200 "OK" None None None)) = [apology].
Proof. reflexivity. Qed.

(** The whole trace of the first message of a conversation, with a
    writer that has [close] and [finish], and with one that has none of
    the three methods. *)
Example first_post_trace :
  trace (snd (POST sample_table (first_post hi (FetchResponds answer_42)) empty_store))
  = [EvSaveChat {| chat_id := "c1"; userId := "alice"; title := u "hi";
                   visibility := Private |};
     EvSaveMessages [user_row (first_post hi (FetchResponds answer_42)) (sample_body hi)];
     EvWrite (MessageStart "uuid-1" RAssistant);
     EvFetch (forwarded_request (first_post hi (FetchResponds answer_42)) empty_store
                (sample_body hi) alice "https://n8n.example/webhook");
     EvWrite (TextDelta (u "42") "uuid-1");
     EvWrite (MessageEnd "uuid-1");
     EvClose;
     EvSaveMessages
       [{| chatId := "c1"; message_id := "uuid-1"; role := RAssistant;
           parts := [text_part (u "42")]; attachments := [];
           createdAt := 1700000000000 |}]].
Proof. reflexivity. Qed.

Example finishWriter_without_methods :
  events_of (finishWriter plain_writer) empty_store = []
  /\ events_of (finishWriter closing_writer) empty_store = [EvClose].
Proof. split; reflexivity. Qed.

(* ================================================================== *)
(** * Further properties of [route.ts] *)
(* ================================================================== *)

(** Every request is either rejected by a guard, with the state left as
    it was, or passes the four guards. *)
Lemma POST_cases (tbl : UserType -> Entitlements) (e : Env) (s : St) :
  (exists code, code <> offline_chat
                /\ POST tbl e s = (Return (ErrorResponse code), s))
  \/ (exists body user, passes_guards tbl e s body user).
Proof.
  unfold POST.
  destruct (request_body e) as [body|] eqn:Hbody.
  2:{ left. exists bad_request_api. split; [discriminate | reflexivity]. }
  destruct (session_user e) as [user|] eqn:Huser.
  2:{ left. exists unauthorized_chat. split; [discriminate | reflexivity]. }
  unfold bind, getMessageCountByUserId, getChatById. cbn [fst snd].
  change (now e - 24 * 60 * 60 * 1000)%Z with (window_start e).
  destruct (maxMessagesPerDay (tbl (user_type user))
            <? message_count (user_id user) (window_start e) s)%Z eqn:Hcount.
  { left. exists rate_limit_chat. split; [discriminate | reflexivity]. }
  fold (chat_of s (body_id body)).
  destruct (owned_by_other (chat_of s (body_id body)) user) eqn:Hown.
  { left. exists forbidden_chat. split; [discriminate | reflexivity]. }
  right. exists body, user. repeat split; try assumption.
  - now apply Z.ltb_ge.
  - now apply owned_by_other_false.
Qed.

Lemma passes_guards_unique (tbl : UserType -> Entitlements) (e : Env) (s : St)
    (body body' : PostRequestBody) (user user' : User) :
  passes_guards tbl e s body user -> passes_guards tbl e s body' user' ->
  body = body' /\ user = user'.
Proof.
  intros (Hb & Hu & _) (Hb' & Hu' & _). split; congruence.
Qed.

(** X1. With the calls of the query layer returning, [POST] answers
    with the stream exactly when the request passes the four guards and
    the endpoint is configured. *)
Theorem POST_streams_exactly_when_admitted
    (tbl : UserType -> Entitlements) (e : Env) (s : St) :
  fst (POST tbl e s) = Return StreamResponse
  <-> exists body user webhookUrl,
        passes_guards tbl e s body user
        /\ configured (N8N_WEBHOOK_URL e) = Some webhookUrl.
Proof.
  destruct (POST_cases tbl e s) as [[code [Hne Hrun]] | [body [user Hg]]].
  - rewrite Hrun. split; [discriminate|].
    intros [body [user [webhookUrl [Hg _]]]].
    pose proof (POST_admitted Hg) as H.
    destruct (configured (N8N_WEBHOOK_URL e)).
    + destruct H as [rows [H _]]. rewrite Hrun in H. discriminate.
    + rewrite Hrun in H. inversion H. congruence.
  - pose proof (POST_admitted Hg) as H.
    destruct (configured (N8N_WEBHOOK_URL e)) as [webhookUrl|] eqn:Hurl.
    + destruct H as [rows [Hrun _]]. rewrite Hrun.
      split; [|reflexivity]. intros _. exists body, user, webhookUrl. auto.
    + rewrite H. split; [discriminate|]. intros [b [u0 [w [_ Hw]]]]. discriminate.
Qed.

(** X2. When the endpoint is not configured, a request that passes the
    guards is answered [offline:chat] only after its writes: the chat is
    created if it was missing and the user's message is stored; nothing
    is sent to the workflow or written to a stream. *)
Theorem POST_offline_after_writes
    (tbl : UserType -> Entitlements) (e : Env) (s : St)
    (body : PostRequestBody) (user : User) :
  passes_guards tbl e s body user ->
  configured (N8N_WEBHOOK_URL e) = None ->
  fst (POST tbl e s) = Return (ErrorResponse offline_chat)
  /\ events_of (POST tbl e) s
     = map EvSaveChat (created_chats s body user) ++ [EvSaveMessages [user_row e body]]
  /\ messages (snd (POST tbl e s)) = messages s ++ [user_row e body]
  /\ chats (snd (POST tbl e s)) = chats s ++ created_chats s body user.
Proof.
  intros Hg Hurl. pose proof (POST_admitted Hg) as H. rewrite Hurl in H.
  rewrite H. repeat split.
  apply events_of_trace. rewrite H. reflexivity.
Qed.

Lemma filter_fetch_saves (rows : list (list DBMessage)) :
  filter is_fetch (map EvSaveMessages rows) = [].
Proof. induction rows; cbn; auto. Qed.

Lemma filter_fetch_finalizer (w : Writer) : filter is_fetch (finalizer_calls w) = [].
Proof.
  unfold finalizer_calls. destruct (has_end w), (has_close w), (has_finish w); reflexivity.
Qed.

Lemma filter_fetch_admission (e : Env) (s : St) (body : PostRequestBody) (user : User) :
  filter is_fetch (admission_events e s body user) = [].
Proof.
  unfold admission_events, created_chats. destruct (chat_of s (body_id body)); reflexivity.
Qed.

(** X3. A request that passes the guards with the endpoint configured
    makes exactly one call to the workflow: a POST to the configured
    address, with the bearer credential exactly when the token is set,
    carrying the conversation id, the selected model, the message and
    the session user. *)
Theorem POST_calls_webhook_once
    (tbl : UserType -> Entitlements) (e : Env) (s : St)
    (body : PostRequestBody) (user : User) (webhookUrl : string) :
  passes_guards tbl e s body user ->
  configured (N8N_WEBHOOK_URL e) = Some webhookUrl ->
  exists rq,
    filter is_fetch (events_of (POST tbl e) s) = [EvFetch rq]
    /\ url rq = webhookUrl
    /\ authorization rq
       = option_map (String.append "Bearer ") (configured (N8N_WEBHOOK_TOKEN e))
    /\ p_chatId (payload rq) = body_id body
    /\ p_model (payload rq) = selectedChatModel body
    /\ p_message (payload rq) = body_message body
    /\ p_user (payload rq) = user.
Proof.
  intros Hg Hurl. pose proof (POST_admitted Hg) as H. rewrite Hurl in H.
  destruct H as [rows [Hrun _]].
  exists (forwarded_request e s body user webhookUrl). repeat split.
  - erewrite events_of_trace by (rewrite Hrun; reflexivity).
    rewrite !filter_app, filter_fetch_admission, filter_fetch_finalizer,
      filter_fetch_saves. reflexivity.
Qed.

(** X4. Unless [POST] answers with the stream it makes no call to the
    workflow and writes nothing to a stream: a rejected request, or one
    without a configured endpoint, never reaches the webhook. *)
Theorem POST_without_stream_makes_no_call
    (tbl : UserType -> Entitlements) (e : Env) (s : St) :
  fst (POST tbl e s) <> Return StreamResponse ->
  Forall (fun ev => match ev with
                    | EvFetch _ | EvWrite _ | EvEnd | EvClose | EvFinish => False
                    | _ => True
                    end)
         (events_of (POST tbl e) s).
Proof.
  intros Hne.
  destruct (POST_cases tbl e s) as [[code [_ Hrun]] | [body [user Hg]]].
  - erewrite events_of_trace with (evs := []) by (rewrite Hrun, app_nil_r; reflexivity).
    constructor.
  - pose proof (POST_admitted Hg) as H.
    destruct (configured (N8N_WEBHOOK_URL e)) as [webhookUrl|].
    + destruct H as [rows [Hrun _]]. rewrite Hrun in Hne. exfalso. now apply Hne.
    + erewrite events_of_trace by (rewrite H; reflexivity).
      unfold admission_events, created_chats.
      destruct (chat_of s (body_id body)); repeat constructor.
Qed.

Lemma POST_chats (tbl : UserType -> Entitlements) (e : Env) (s : St) :
  chats (snd (POST tbl e s)) = chats s
  \/ exists body user,
       passes_guards tbl e s body user
       /\ chat_of s (body_id body) = None
       /\ chats (snd (POST tbl e s)) = chats s ++ [new_chat body user].
Proof.
  destruct (POST_cases tbl e s) as [[code [_ Hrun]] | [body [user Hg]]].
  - left. rewrite Hrun. reflexivity.
  - destruct (POST_creates_chat Hg) as [Hchats Hnew].
    destruct (chat_of s (body_id body)) as [c|] eqn:Hc.
    + left. rewrite Hchats. unfold created_chats. rewrite Hc. apply app_nil_r.
    + right. exists body, user. split; [exact Hg|]. split; [exact Hc|].
      rewrite Hchats. destruct (Hnew eq_refl) as [-> _]. reflexivity.
Qed.



(** X6. [POST] never changes or removes a chat: every conversation keeps
    its record, and so its owner, title and visibility, and a request
    for a conversation of the caller creates none. *)
Theorem POST_preserves_existing_chats
    (tbl : UserType -> Entitlements) (e : Env) (s : St) (id : string) (c : Chat) :
  chat_of s id = Some c ->
  chat_of (snd (POST tbl e s)) id = Some c
  /\ (forall body, request_body e = Some body -> body_id body = id ->
      chats (snd (POST tbl e s)) = chats s).
Proof.
  intros Hc. split.
  - unfold chat_of in *.
    destruct (POST_chats tbl e s) as [-> | [body [user [_ [_ ->]]]]]; [exact Hc|].
    rewrite find_app_first, Hc. reflexivity.
  - intros body Hbody Hid.
    destruct (POST_chats tbl e s) as [H | [body' [user [Hg [Hnone _]]]]]; [exact H|].
    destruct Hg as (Hb & _). rewrite Hbody in Hb. inversion Hb; subst body'.
    rewrite Hid in Hnone. congruence.
Qed.

(** ** What [onFinish] persists *)

Lemma apology_truthy : truthy apology = true.
Proof. reflexivity. Qed.

Lemma reply_of_truthy (f : FetchOutcome) : truthy (reply_of f) = true.
Proof.
  destruct f as [|res]; [reflexivity|]. unfold reply_of.
  destruct (ok res).
  - destruct (if is_json_reply res then _ else _) as [a|]; [|reflexivity].
    unfold or_else. destruct (truthy a) eqn:Ha; [exact Ha | reflexivity].
  - unfold or_else.
    destruct (truthy (match res_text res with Some t => t | None => [] end)) eqn:Ht;
      [exact Ht | reflexivity].
Qed.

Lemma truthy_not_nil (t : jstr) : truthy t = true <-> t <> [].
Proof. destruct t; cbn; split; congruence. Qed.

(** X7. For a request that is streamed, [onFinish] adds to the message
    table, after the user's row: the rows of the messages the stream
    produced, as assistant turns; or, when that write fails, one
    assistant row under a fresh id whose single text part is the text
    of the text-delta that [execute] wrote; or nothing, when this second
    write fails too.  The user's row stays in each case. *)
Theorem POST_persists_the_reply
    (tbl : UserType -> Entitlements) (e : Env) (s : St)
    (body : PostRequestBody) (user : User) (webhookUrl : string) :
  passes_guards tbl e s body user ->
  configured (N8N_WEBHOOK_URL e) = Some webhookUrl ->
  exists t,
    deltas (events_of (POST tbl e) s) = [t]
    /\ t <> []
    /\ messages (snd (POST tbl e s))
       = messages s ++ user_row e body
           :: (if persist_fails e then
                 if fallback_fails e then []
                 else [{| chatId := body_id body;
                          message_id := fallback_uuid e;
                          role := RAssistant;
                          parts := [JObj [([116; 121; 112; 101]%N, JStr [116; 101; 120; 116]%N);
                                          ([116; 101; 120; 116]%N, JStr t)]];
                          attachments := [];
                          createdAt := now e |}]
               else map (fun m =>
                           {| chatId := body_id body;
                              message_id := rm_id m;
                              role := RAssistant;
                              parts := rm_parts m;
                              attachments := [];
                              createdAt := now e |})
                        (finished_messages e)).
Proof.
  intros Hg Hurl. exists (reply_of (fetch_outcome e)).
  split; [exact (proj2 (POST_streams Hg Hurl))|].
  split; [apply truthy_not_nil, reply_of_truthy|].
  pose proof (POST_admitted Hg) as H. rewrite Hurl in H.
  destruct H as [rows [Hrun ->]]. rewrite Hrun. cbn [snd messages].
  unfold persisted_rows, finished_rows, fallback_row. rewrite reply_of_truthy.
  rewrite <- app_assoc. cbn [app]. do 2 f_equal.
  destruct (persist_fails e); [destruct (fallback_fails e)|]; cbn;
    rewrite ?app_nil_r; reflexivity.
Qed.

(** X8. Whatever the workflow does, [execute] writes the same four
    things in the same order before it finishes the writer: the start of
    an assistant message, then the one call to the workflow, then one
    text delta and the end marker, all three chunks under the one
    message id.  The text is never empty, and it is the text remembered
    for [onFinish]. *)
Theorem execute_stream_shape
    (e : Env) (id model : string) (message : ChatMessage)
    (history : list ChatMessage) (user : User) (webhookUrl : string) (s : St) :
  exists t,
    events_of (execute e id model message history user webhookUrl) s
    = [EvWrite (MessageStart (msgId_uuid e) RAssistant);
       EvFetch (webhook_request e id model message history user webhookUrl);
       EvWrite (TextDelta t (msgId_uuid e));
       EvWrite (MessageEnd (msgId_uuid e))]
      ++ finalizer_calls (writer e)
    /\ t <> []
    /\ assistantFullText (snd (execute e id model message history user webhookUrl s)) = t
    /\ chats (snd (execute e id model message history user webhookUrl s)) = chats s
    /\ messages (snd (execute e id model message history user webhookUrl s)) = messages s.
Proof.
  exists (reply_of (fetch_outcome e)). repeat split.
  - apply execute_events.
  - apply truthy_not_nil, reply_of_truthy.
  - rewrite execute_run. reflexivity.
  - rewrite execute_run. reflexivity.
  - rewrite execute_run. reflexivity.
Qed.

(** ** Titles *)

Lemma trimStart_all_ws (s : jstr) : trimStart s = [] -> Forall (fun c => is_ws c = true) s.
Proof.
  induction s as [|c r IH]; cbn; [constructor|].
  destruct (is_ws c) eqn:Hc; [|discriminate]. intros H. constructor; auto.
Qed.

Lemma all_ws_trimStart (s : jstr) : Forall (fun c => is_ws c = true) s -> trimStart s = [].
Proof. induction 1 as [|c r Hc _ IH]; cbn; [reflexivity|]. now rewrite Hc. Qed.

Lemma trimStart_head (s : jstr) :
  trimStart s = [] \/ is_ws (hd 32%N (trimStart s)) = false.
Proof.
  induction s as [|c r IH]; cbn; [left; reflexivity|].
  destruct (is_ws c) eqn:Hc; [exact IH | right; exact Hc].
Qed.

Lemma trimStart_suffix (s : jstr) : exists p, s = p ++ trimStart s.
Proof.
  induction s as [|c r [p Hp]]; cbn.
  - exists []. reflexivity.
  - destruct (is_ws c).
    + exists (c :: p). cbn. now rewrite <- Hp.
    + exists []. reflexivity.
Qed.

Lemma trimStart_fixed (s : jstr) : is_ws (hd 32%N s) = false -> trimStart s = s.
Proof. destruct s as [|c r]; cbn; [reflexivity|]. now intros ->. Qed.

Lemma hd_rev_last (s : jstr) : hd 32%N (rev s) = last s 32%N.
Proof.
  induction s as [|c r IH]; [reflexivity|].
  cbn [rev]. destruct r as [|d r']; [reflexivity|].
  change (last (c :: d :: r') 32%N) with (last (d :: r') 32%N). rewrite <- IH.
  destruct (rev (d :: r')) eqn:Hr; [|reflexivity].
  apply (f_equal (@List.length N)) in Hr. rewrite length_rev in Hr. discriminate.
Qed.

Lemma last_rev_hd (s : jstr) : last (rev s) 32%N = hd 32%N s.
Proof. rewrite <- hd_rev_last, rev_involutive. reflexivity. Qed.

(** A trimmed text is empty or starts and ends with a code unit that is
    not white space. *)
Lemma trim_ends (t : jstr) :
  trim t = []
  \/ (is_ws (hd 32%N (trim t)) = false /\ is_ws (last (trim t) 32%N) = false).
Proof.
  unfold trim, trimEnd.
  destruct (trimStart_head t) as [Ha | Ha]; [left; rewrite Ha; reflexivity|].
  set (a := trimStart t) in *.
  destruct (trimStart_head (rev a)) as [Hb | Hb].
  - exfalso. apply trimStart_all_ws in Hb.
    destruct a as [|c r]; [discriminate Ha|]. cbn in Ha.
    rewrite Forall_forall in Hb. specialize (Hb c).
    rewrite <- in_rev in Hb. rewrite Hb in Ha by (left; reflexivity). discriminate.
  - right. split.
    + destruct (trimStart_suffix (rev a)) as [p Hp].
      assert (Hrev : a = rev (trimStart (rev a)) ++ rev p).
      { rewrite <- rev_app_distr, <- Hp, rev_involutive. reflexivity. }
      destruct (rev (trimStart (rev a))) as [|x l] eqn:Hx.
      * apply (f_equal (@rev N)) in Hx. rewrite rev_involutive in Hx.
        rewrite Hx in Hb. discriminate Hb.
      * rewrite Hrev in Ha. exact Ha.
    + rewrite last_rev_hd. exact Hb.
Qed.

Lemma last_cons_cons (c d : N) (r : jstr) : last (c :: d :: r) 32%N = last (d :: r) 32%N.
Proof. reflexivity. Qed.

(** The pieces of a split are not empty when the text neither starts
    nor ends with white space. *)
Lemma split_ws_from_nonempty (s cur : jstr) (in_ws : bool) :
  cur <> [] \/ in_ws = true \/ is_ws (hd 32%N s) = false ->
  is_ws (last s 32%N) = false \/ (s = [] /\ cur <> []) ->
  Forall (fun p => p <> []) (split_ws_from cur in_ws s).
Proof.
  revert cur in_ws. induction s as [|c r IH]; intros cur in_ws Hstart Hend; cbn.
  - destruct Hend as [H | [_ H]]; [discriminate H|].
    constructor; [|constructor]. intros Hr. apply H.
    apply (f_equal (@rev N)) in Hr. now rewrite rev_involutive in Hr.
  - assert (Hr : is_ws c = true -> is_ws (last r 32%N) = false).
    { intros Hc. destruct Hend as [H | [H _]]; [|discriminate H].
      destruct r as [|d r']; [cbn in H; congruence | exact H]. }
    destruct (is_ws c) eqn:Hc.
    + destruct in_ws.
      * apply IH; auto.
      * constructor.
        -- destruct Hstart as [H | [H | H]]; [|discriminate H | cbn in H; congruence].
           intros Hrev. apply H. apply (f_equal (@rev N)) in Hrev.
           now rewrite rev_involutive in Hrev.
        -- apply IH; auto.
    + apply IH; [left; discriminate|].
      destruct r as [|d r']; [right; split; [reflexivity | discriminate]|].
      left. destruct Hend as [H | [H _]]; [exact H | discriminate H].
Qed.

Lemma split_ws_from_not_nil (cur : jstr) (in_ws : bool) (s : jstr) :
  split_ws_from cur in_ws s <> [].
Proof.
  revert cur in_ws. induction s as [|c r IH]; intros cur in_ws; cbn; [discriminate|].
  destruct (is_ws c); [destruct in_ws; [apply IH | discriminate] | apply IH].
Qed.

Lemma join_nonempty (sep : jstr) (words : list jstr) :
  words <> [] -> Forall (fun p => p <> []) words -> join sep words <> [].
Proof.
  destruct words as [|w rest]; [congruence|]. intros _ H. inversion H as [|w' l Hw _]; subst.
  destruct w as [|c w']; [congruence|]. destruct rest; cbn; discriminate.
Qed.

(** X9. The title [makeTitleFromMessage] gives is the fallback or a
    normalised text: between one and eight words, none empty and none
    containing white space, joined by single spaces, so without leading,
    trailing or repeated white space.  With a non-empty fallback the
    title is never empty. *)
Theorem title_is_normalised (msg : ChatMessage) (fallback : jstr) :
  (Route.makeTitleFromMessage msg fallback = fallback
   \/ exists words,
        Route.makeTitleFromMessage msg fallback = join (u " ") words
        /\ (1 <= List.length words <= 8)%nat
        /\ Forall is_title_word words)
  /\ (fallback <> [] -> Route.makeTitleFromMessage msg fallback <> []).
Proof.
  assert (Hmain :
    Route.makeTitleFromMessage msg fallback = fallback
    \/ exists words,
         Route.makeTitleFromMessage msg fallback = join (u " ") words
         /\ (1 <= List.length words <= 8)%nat
         /\ Forall is_title_word words).
  { unfold Route.makeTitleFromMessage.
    match goal with
    | |- context [match ?ft with Some t => if truthy t then _ else _ | None => fallback end] =>
        destruct ft as [t|]; [|left; reflexivity]
    end.
    destruct (truthy t); [|left; reflexivity].
    cbv zeta. unfold or_else.
    destruct (truthy (join (u " ") (slice0 8 (split_ws (trim t))))) eqn:Hw;
      [|left; reflexivity].
    right. exists (slice0 8 (split_ws (trim t))).
    destruct (trim_ends t) as [Hempty | [Hhd Hlast]].
    { rewrite Hempty in Hw. discriminate Hw. }
    assert (Hne : Forall (fun p => p <> []) (split_ws (trim t))).
    { apply split_ws_from_nonempty; auto. }
    assert (Hwords : Forall is_word (split_ws (trim t))).
    { apply split_ws_from_words. constructor. }
    split; [reflexivity|]. split.
    - unfold slice0. split; [|apply firstn_le_length].
      pose proof (split_ws_from_not_nil [] false (trim t)) as Hs.
      fold (split_ws (trim t)) in Hs.
      destruct (split_ws (trim t)) as [|p l]; [congruence | cbn; lia].
    - unfold slice0, is_title_word. apply Forall_firstn_of.
      rewrite Forall_forall in *. intros w Hin. split; auto. }
  split; [exact Hmain|].
  intros Hfb. destruct Hmain as [-> | [words [-> [[Hlen _] Hwords]]]]; [exact Hfb|].
  apply join_nonempty.
  - destruct words; [cbn in Hlen; lia | discriminate].
  - rewrite Forall_forall in *. intros w Hin. exact (proj1 (Hwords w Hin)).
Qed.

Lemma split_ws_from_word (w cur rest : jstr) :
  is_word w ->
  split_ws_from cur false (w ++ rest) = split_ws_from (rev w ++ cur) false rest.
Proof.
  revert cur. induction w as [|c w IH]; intros cur Hw; [reflexivity|].
  inversion Hw as [|c' w' Hc Hw']; subst. cbn [app split_ws_from]. rewrite Hc.
  rewrite IH by exact Hw'. cbn [rev]. rewrite <- app_assoc. reflexivity.
Qed.

Lemma split_ws_from_after_separator (s : jstr) :
  is_ws (hd 32%N s) = false -> split_ws_from [] true s = split_ws_from [] false s.
Proof. destruct s as [|c r]; cbn; [discriminate|]. now intros ->. Qed.

Lemma title_word_hd (w : jstr) : is_title_word w -> is_ws (hd 32%N w) = false.
Proof.
  intros [Hne Hw]. destruct w as [|c w']; [congruence|]. now inversion Hw.
Qed.

Lemma title_word_last (w : jstr) : is_title_word w -> is_ws (last w 32%N) = false.
Proof.
  intros [Hne Hw]. induction w as [|c w' IH]; [congruence|].
  inversion Hw as [|c' l Hc Hw']; subst.
  destruct w' as [|d w'']; [exact Hc|]. apply IH; [discriminate | exact Hw'].
Qed.

Lemma join_hd (words : list jstr) :
  words <> [] -> Forall is_title_word words ->
  is_ws (hd 32%N (join (u " ") words)) = false.
Proof.
  destruct words as [|w rest]; [congruence|]. intros _ H.
  inversion H as [|w' l Hw _]; subst. pose proof (title_word_hd Hw) as Hhd.
  destruct w as [|c w']; [destruct Hw; congruence|].
  destruct rest; exact Hhd.
Qed.

Lemma last_app_nonempty (a b : jstr) : b <> [] -> last (a ++ b) 32%N = last b 32%N.
Proof.
  intros Hb. induction a as [|c a IH]; [reflexivity|].
  cbn [app]. destruct (a ++ b) eqn:Hab; [|exact IH].
  apply app_eq_nil in Hab. tauto.
Qed.

Lemma join_cons2 (sep w w2 : jstr) (rest : list jstr) :
  join sep (w :: w2 :: rest) = w ++ sep ++ join sep (w2 :: rest).
Proof. reflexivity. Qed.

Lemma join_last (words : list jstr) :
  words <> [] -> Forall is_title_word words ->
  is_ws (last (join (u " ") words) 32%N) = false.
Proof.
  induction words as [|w rest IH]; [congruence|]. intros _ H.
  inversion H as [|w' l Hw Hrest]; subst.
  destruct rest as [|w2 rest'].
  - cbn. exact (title_word_last Hw).
  - assert (Hj : join (u " ") (w2 :: rest') <> []).
    { apply join_nonempty; [discriminate|].
      rewrite Forall_forall in *. intros x Hx. exact (proj1 (Hrest x Hx)). }
    rewrite join_cons2, last_app_nonempty, last_app_nonempty; [| exact Hj |].
    + apply IH; [discriminate | exact Hrest].
    + intros Habs. apply app_eq_nil in Habs. destruct Habs as [Habs _]. discriminate.
Qed.

(** Splitting what [join] built gives the words back. *)
Lemma split_ws_join (words : list jstr) :
  words <> [] -> Forall is_title_word words ->
  split_ws (join (u " ") words) = words.
Proof.
  unfold split_ws. induction words as [|w rest IH]; [congruence|]. intros _ H.
  inversion H as [|w' l Hw Hrest]; subst.
  destruct rest as [|w2 rest'].
  - cbn [join]. rewrite <- (app_nil_r w) at 1.
    rewrite split_ws_from_word by exact (proj2 Hw). cbn.
    rewrite app_nil_r, rev_involutive. reflexivity.
  - rewrite join_cons2, split_ws_from_word by exact (proj2 Hw).
    change (u " " ++ join (u " ") (w2 :: rest')) with (32%N :: join (u " ") (w2 :: rest')).
    cbn [split_ws_from]. change (is_ws 32) with true. cbn iota.
    rewrite app_nil_r, rev_involutive. f_equal.
    rewrite split_ws_from_after_separator.
    + apply IH; [discriminate | exact Hrest].
    + apply join_hd; [discriminate | exact Hrest].
Qed.

Lemma trim_join (words : list jstr) :
  words <> [] -> Forall is_title_word words ->
  trim (join (u " ") words) = join (u " ") words.
Proof.
  intros Hne H. unfold trim, trimEnd.
  rewrite (trimStart_fixed _ (join_hd Hne H)).
  rewrite trimStart_fixed, rev_involutive; [reflexivity|].
  rewrite hd_rev_last. exact (join_last Hne H).
Qed.

(** X10. When the first text of a message is a list of words separated
    by single spaces, its title is the first eight of them, separated
    the same way: a text of at most eight words is its own title. *)
Theorem title_of_spaced_words
    (msg : ChatMessage) (fallback : jstr) (words : list jstr) :
  firstText_of (msg_parts msg) = Some (join (u " ") words) ->
  words <> [] ->
  Forall is_title_word words ->
  Route.makeTitleFromMessage msg fallback = join (u " ") (firstn 8 words)
  /\ ((List.length words <= 8)%nat ->
      Route.makeTitleFromMessage msg fallback = join (u " ") words).
Proof.
  intros Hfirst Hne Hwords.
  assert (Htitle : Route.makeTitleFromMessage msg fallback = join (u " ") (firstn 8 words)).
  { unfold Route.makeTitleFromMessage. rewrite Hfirst.
    assert (Ht : truthy (join (u " ") words) = true).
    { apply truthy_not_nil, join_nonempty; [exact Hne|].
      rewrite Forall_forall in *. intros x Hx. exact (proj1 (Hwords x Hx)). }
    rewrite Ht. cbv zeta. rewrite Ht.
    rewrite (trim_join Hne Hwords), (split_ws_join Hne Hwords).
    unfold slice0, or_else.
    assert (Hf : truthy (join (u " ") (firstn 8 words)) = true).
    { apply truthy_not_nil, join_nonempty.
      - destruct words; [congruence | discriminate].
      - apply Forall_firstn_of.
        rewrite Forall_forall in *. intros x Hx. exact (proj1 (Hwords x Hx)). }
    rewrite Hf. reflexivity. }
  split; [exact Htitle|].
  intros Hlen. rewrite Htitle, firstn_all2 by exact Hlen. reflexivity.
Qed.

Lemma nine_words_are_words : Forall is_title_word nine_words.
Proof.
  unfold nine_words. repeat constructor; try discriminate.
Defined.

(** X10 at nine words: the ninth is dropped. *)
Lemma title_of_spaced_words_witness :
  Route.makeTitleFromMessage
    (user_message "m1" [text_part (join (u " ") nine_words)]) (u "New chat")
  = u "one two three four five six seven eight".
Proof.
  apply (proj1 (@title_of_spaced_words
                  (user_message "m1" [text_part (join (u " ") nine_words)])
                  (u "New chat") nine_words eq_refl
                  ltac:(discriminate) nine_words_are_words)).
Defined.

(** X11. The draft that returns the clipped words without the final
    fallback gives a chat the empty title when the first text is white
    space only, where [route.ts] gives the fallback. *)
Theorem blank_text_title
    (msg : ChatMessage) (fallback : jstr) (t : jstr) :
  firstText_of (msg_parts msg) = Some t ->
  t <> [] ->
  Forall (fun c => is_ws c = true) t ->
  Inline.makeTitleFromMessage msg fallback = []
  /\ Route.makeTitleFromMessage msg fallback = fallback.
Proof.
  intros Hfirst Hne Hws.
  assert (Htrim : trim t = []).
  { unfold trim, trimEnd. rewrite (all_ws_trimStart Hws). reflexivity. }
  apply truthy_not_nil in Hne.
  unfold Inline.makeTitleFromMessage, Route.makeTitleFromMessage.
  rewrite Hfirst, Hne. cbv zeta. rewrite Hne, Htrim. split; reflexivity.
Qed.

(** X11 at a text of three spaces. *)
Lemma blank_text_title_witness :
  Inline.makeTitleFromMessage (user_message "m1" [text_part (u "   ")]) (u "New chat") = []
  /\ Route.makeTitleFromMessage (user_message "m1" [text_part (u "   ")]) (u "New chat")
     = u "New chat".
Proof.
  apply (@blank_text_title (user_message "m1" [text_part (u "   ")]) (u "New chat")
           (u "   ") eq_refl).
  - discriminate.
  - repeat constructor.
Defined.

(** X12. Whenever the title of [route.ts] is not the fallback, or the
    fallback has at most 80 code units, the title of the drafts that clip
    is exactly the first 80 code units of the title of [route.ts] (so the
    two agree when that has at most 80 code units). *)
Theorem draft_title_is_route_title_clipped (msg : ChatMessage) (fallback : jstr) :
  Route.makeTitleFromMessage msg fallback <> fallback
  \/ (List.length fallback <= 80)%nat ->
  Drafts.makeTitleFromMessage msg fallback
  = firstn 80 (Route.makeTitleFromMessage msg fallback).
Proof.
  unfold Drafts.makeTitleFromMessage, Route.makeTitleFromMessage.
  assert (Hfb : fallback <> fallback \/ (List.length fallback <= 80)%nat ->
                fallback = firstn 80 fallback).
  { intros [H | H]; [congruence | symmetry; apply firstn_all2; exact H]. }
  match goal with
  | |- context [match ?ft with Some t => if truthy t then _ else _ | None => fallback end] =>
      destruct ft as [t|]; [|exact Hfb]
  end.
  destruct (truthy t); [|exact Hfb].
  cbv zeta. set (words := join (u " ") (slice0 8 (split_ws (trim t)))).
  destruct words as [|c w] eqn:Hw.
  - cbn. exact Hfb.
  - intros _. rewrite <- Hw.
    assert (Ht : truthy words = true) by (rewrite Hw; reflexivity).
    unfold or_else at 2. rewrite Ht.
    destruct (Nat.ltb_spec 80 (List.length words)) as [Hlong | Hshort].
    + unfold or_else. rewrite Hw. reflexivity.
    + unfold or_else. rewrite Ht. symmetry. apply firstn_all2. exact Hshort.
Qed.

(** X12 at a message of one word of 81 letters: the draft's title is the
    first 80 of them. *)
Lemma draft_title_is_route_title_clipped_witness :
  Drafts.makeTitleFromMessage long_word_message [78; 101; 119; 32; 99; 104; 97; 116]%N
  = firstn 80 (Route.makeTitleFromMessage long_word_message
                 [78; 101; 119; 32; 99; 104; 97; 116]%N).
Proof.
  apply (@draft_title_is_route_title_clipped long_word_message
           [78; 101; 119; 32; 99; 104; 97; 116]%N).
  right. cbn. lia.
Defined.

(** X13. On a message whose first part is a text part with a non-empty
    string, the draft that looks the text up with [find] gives the same
    title as the drafts that loop over the parts. *)
Theorem find_draft_title_agrees
    (msg : ChatMessage) (fallback : jstr) (fields : list (jstr * json))
    (rest : list json) (t : jstr) :
  msg_parts msg = JObj fields :: rest ->
  typed_text fields (u "text") = Some t ->
  t <> [] ->
  Proxy.makeTitleFromMessage msg fallback = Drafts.makeTitleFromMessage msg fallback.
Proof.
  intros Hparts Htext Hne. apply truthy_not_nil in Hne.
  unfold Proxy.makeTitleFromMessage, Drafts.makeTitleFromMessage, Proxy.found_text.
  rewrite Hparts. cbn [firstText_of find Proxy.is_text_part]. rewrite Htext.
  unfold typed_text in Htext.
  destruct (has_type fields (u "text")) eqn:Hty; [|discriminate].
  unfold string_prop in Htext.
  destruct (lookup (u "text") fields) as [[| | |t'| |]|]; try discriminate.
  inversion Htext; subst t'. rewrite Hne. cbv zeta. rewrite Hne.
  set (words := join (u " ") (slice0 8 (split_ws (trim t)))).
  destruct (Nat.ltb_spec 80 (List.length words)) as [Hlong | Hshort]; [|reflexivity].
  unfold or_else.
  destruct words; [cbn in Hlong; lia | reflexivity].
Qed.

(** X13 at the message [hi]. *)
Lemma find_draft_title_agrees_witness :
  Proxy.makeTitleFromMessage hi (u "New chat") = Drafts.makeTitleFromMessage hi (u "New chat").
Proof.
  apply (@find_draft_title_agrees hi (u "New chat")
           [(u "type", JStr (u "text")); (u "text", JStr (u "hi"))] [] (u "hi")
           eq_refl eq_refl).
  discriminate.
Defined.

(* ================================================================== *)
(** * Further properties of [DELETE] and of the drafts *)
(* ================================================================== *)

(** X14. [DELETE] deletes only for the owner.  Either it answers with an
    error and leaves the state as it was ([bad_request:api] when the id
    is missing or empty, whoever calls; [unauthorized:chat] without a
    session; [forbidden:chat] when the conversation is missing or
    belongs to somebody else), or the caller owns the conversation, the
    one deletion made is of that conversation, and the answer is 200
    with the deleted record. *)
Theorem DELETE_deletes_only_for_owner
    (e : Env) (searchParams_id : option string) (s : St) :
  (exists code,
     DELETE e searchParams_id s = (Return (ErrorResponse code), s)
     /\ ((code = bad_request_api /\ configured searchParams_id = None)
         \/ (code = unauthorized_chat /\ configured searchParams_id <> None
             /\ session_user e = None)
         \/ (code = forbidden_chat
             /\ exists id user,
                  configured searchParams_id = Some id
                  /\ session_user e = Some user
                  /\ forall c, chat_of s id = Some c -> userId c <> user_id user)))
  \/ (exists id user c,
        configured searchParams_id = Some id
        /\ session_user e = Some user
        /\ chat_of s id = Some c
        /\ userId c = user_id user
        /\ fst (DELETE e searchParams_id s) = Return (JsonResponse (Some c) 200)
        /\ events_of (DELETE e searchParams_id) s = [EvDeleteChat id]).
Proof.
  destruct (configured searchParams_id) as [id|] eqn:Hid.
  2:{ left. exists bad_request_api. unfold DELETE. rewrite Hid.
      split; [reflexivity | left; auto]. }
  destruct (session_user e) as [user|] eqn:Huser.
  2:{ left. exists unauthorized_chat. unfold DELETE. rewrite Hid, Huser.
      split; [reflexivity|]. right. left. repeat split. discriminate. }
  assert (Hrun : DELETE e searchParams_id s
                 = if not_owner (chat_of s id) user
                   then (Return (ErrorResponse forbidden_chat), s)
                   else (Return (JsonResponse (chat_of s id) 200),
                         snd (deleteChatById id s))).
  { unfold DELETE. rewrite Hid, Huser. unfold bind, getChatById.
    fold (chat_of s id). destruct (not_owner (chat_of s id) user); reflexivity. }
  unfold not_owner in Hrun.
  destruct (chat_of s id) as [c|] eqn:Hc.
  - destruct (String.eqb_spec (userId c) (user_id user)) as [Hown | Hother];
      cbn [negb] in Hrun.
    + right. exists id, user, c. repeat split; try assumption.
      * rewrite Hrun. reflexivity.
      * apply events_of_trace. rewrite Hrun. reflexivity.
    + left. exists forbidden_chat. split; [exact Hrun|].
      right. right. split; [reflexivity|]. exists id, user. repeat split.
      intros c' Hc'. rewrite Hc in Hc'. inversion Hc'; subst. exact Hother.
  - left. exists forbidden_chat. split; [exact Hrun|].
    right. right. split; [reflexivity|]. exists id, user. repeat split.
    intros c' Hc'. rewrite Hc in Hc'. discriminate.
Qed.

(** X15. [extractAssistantText] on a JSON reply whose body parses never
    rejects: it returns the value of the first of [answer], [text],
    [content] that is neither missing nor [null], as it is, and the
    serialization of the body when there is none.  The optional chaining
    makes a [null] body safe: it gives the string ["null"]. *)
Theorem extractAssistantText_of_json
    (res : WorkflowResponse) (retry : option jstr) (data : json) :
  is_json_reply res = true ->
  res_json res = Some data ->
  Buffered.extractAssistantText res retry
  = inr (match first_present buffered_keys data with
         | Some v => v
         | None => JStr (stringify data)
         end)
  /\ (data = JNull -> Buffered.extractAssistantText res retry = inr (JStr (u "null"))).
Proof.
  intros Hjson Hdata. unfold is_json_reply in Hjson.
  assert (H : Buffered.extractAssistantText res retry
              = inr (match first_present buffered_keys data with
                     | Some v => v
                     | None => JStr (stringify data)
                     end)).
  { unfold Buffered.extractAssistantText. rewrite Hjson, Hdata.
    unfold buffered_keys, first_present, Buffered.get_prop_opt, Buffered.or_value, get_prop.
    destruct data as [|b|repr fin|t|items|fields]; try reflexivity.
    destruct (lookup (u "answer") fields) as [[]|]; try reflexivity;
      (destruct (lookup (u "text") fields) as [[]|]; try reflexivity;
       (destruct (lookup (u "content") fields) as [[]|]; reflexivity)). }
  split; [exact H|]. intros ->. exact H.
Qed.

(** X15 at the body [null]. *)
Lemma extractAssistantText_of_json_witness :
  Buffered.extractAssistantText null_reply None = inr (JStr (u "null")).
Proof.
  apply (proj2 (@extractAssistantText_of_json null_reply None JNull eq_refl eq_refl)).
  reflexivity.
Defined.

(** ** The draft that proxies the response *)

Lemma pump_run (id : string) (texts : list jstr) (s : St) :
  Proxy.pump id texts s =
  (Return tt,
   {| chats := chats s; messages := messages s;
      assistantFullText := assistantFullText s;
      trace := trace s ++ delta_writes id texts |}).
Proof.
  revert s. induction texts as [|t rest IH]; intros s; cbn [Proxy.pump delta_writes map].
  - unfold ret. rewrite app_nil_r, St_eta. reflexivity.
  - unfold bind, emit. rewrite IH. cbn. rewrite <- app_assoc. reflexivity.
Qed.

Lemma delta_writes_app (id : string) (a b : list jstr) :
  delta_writes id (a ++ b) = delta_writes id a ++ delta_writes id b.
Proof. apply map_app. Qed.

Lemma proxy_execute_run (e : Env) (res : WorkflowResponse)
    (body : option Proxy.BodyStream) (s : St) :
  Proxy.execute e res body s =
  (Return tt,
   {| chats := chats s; messages := messages s;
      assistantFullText := assistantFullText s;
      trace := trace s ++ delta_writes (msgId_uuid e) (proxied_texts res body)
               ++ finalizer_calls (writer e) |}).
Proof.
  unfold Proxy.execute, proxied_texts, try_catch.
  destruct body as [stream|].
  - unfold bind at 1. rewrite pump_run.
    destruct (Proxy.read_fails stream).
    + unfold bind, throw, emit. rewrite finishWriter_run. cbn.
      rewrite delta_writes_app, <- !app_assoc. reflexivity.
    + unfold bind, ret. rewrite finishWriter_run. cbn.
      rewrite app_nil_r, <- !app_assoc. reflexivity.
  - destruct (res_text res) as [text|].
    + unfold bind, emit. rewrite finishWriter_run. cbn.
      rewrite <- !app_assoc. reflexivity.
    + unfold bind, throw, emit. rewrite finishWriter_run. cbn.
      rewrite <- !app_assoc. reflexivity.
Qed.

Lemma deltas_delta_writes (id : string) (texts : list jstr) :
  deltas (delta_writes id texts) = texts.
Proof. induction texts as [|t r IH]; cbn; [reflexivity|]. now f_equal. Qed.

(** X16. The [execute] callback of the proxying draft returns normally
    and forwards the body as it reads it, in order: the chunks of the
    body stream (or the body text when there is no stream), followed by
    the fixed error text when a read fails, so what was already
    forwarded stays; then it finishes the writer.  The status of the
    response is not looked at. *)
Theorem proxy_execute_forwards_body
    (e : Env) (res : WorkflowResponse) (body : option Proxy.BodyStream) (s : St) :
  fst (Proxy.execute e res body s) = Return tt
  /\ events_of (Proxy.execute e res body) s
     = delta_writes (msgId_uuid e) (proxied_texts res body) ++ finalizer_calls (writer e)
  /\ deltas (events_of (Proxy.execute e res body) s)
     = match body with
       | Some stream =>
           Proxy.chunks stream
           ++ (if Proxy.read_fails stream then [Proxy.connection_error] else [])
       | None =>
           match res_text res with
           | Some text => [text]
           | None => [Proxy.connection_error]
           end
       end.
Proof.
  assert (Hev : events_of (Proxy.execute e res body) s
                = delta_writes (msgId_uuid e) (proxied_texts res body)
                  ++ finalizer_calls (writer e)).
  { apply events_of_trace. rewrite proxy_execute_run. reflexivity. }
  repeat split.
  - rewrite proxy_execute_run. reflexivity.
  - exact Hev.
  - rewrite Hev, deltas_app, deltas_delta_writes, deltas_finalizer_calls, app_nil_r.
    reflexivity.
Qed.

(** The state of the proxying draft after its writes and its call to the
    workflow. *)
Lemma proxy_POST_admitted (tbl : UserType -> Entitlements) (e : Env)
    (body_stream : option Proxy.BodyStream) (s : St)
    (body : PostRequestBody) (user : User) (webhookUrl : string) :
  passes_guards tbl e s body user ->
  configured (N8N_WEBHOOK_URL e) = Some webhookUrl ->
  exists out tail,
    Proxy.POST tbl e body_stream s =
    (out,
     {| chats := chats s ++ proxy_created_chats s body user;
        messages := (messages s ++ [user_row e body]) ++ List.concat (map snd tail);
        assistantFullText := assistantFullText s;
        trace := trace s
                 ++ map EvSaveChat (proxy_created_chats s body user)
                 ++ [EvSaveMessages [user_row e body];
                     EvFetch (proxy_request e s body user webhookUrl)]
                 ++ List.concat (map fst tail) |})
    /\ match fetch_outcome e with
       | FetchThrows => out = Return (ErrorResponse offline_chat) /\ tail = []
       | FetchResponds res =>
           out = Return StreamResponse
           /\ tail = (if persist_fails e
                      then [(delta_writes (msgId_uuid e) (proxied_texts res body_stream)
                             ++ finalizer_calls (writer e), [])]
                      else [(delta_writes (msgId_uuid e) (proxied_texts res body_stream)
                             ++ finalizer_calls (writer e)
                             ++ [EvSaveMessages (finished_rows e (body_id body))],
                             finished_rows e (body_id body))])
       end.
Proof.
  intros (Hbody & Huser & Hcount & Hown) Hurl.
  apply Z.ltb_ge in Hcount. apply owned_by_other_false in Hown.
  unfold Proxy.POST. rewrite Hbody, Huser.
  unfold bind at 1. unfold getMessageCountByUserId at 1.
  change (now e - 24 * 60 * 60 * 1000)%Z with (window_start e).
  rewrite Hcount.
  unfold bind at 1. unfold getChatById at 1.
  change (find (fun c => String.eqb (chat_id c) (body_id body)) (chats s))
    with (chat_of s (body_id body)).
  rewrite Hown, Hurl.
  unfold proxy_created_chats, proxy_request, Drafts.uiHistory, createUIMessageStream,
    Proxy.onFinish, finished_rows.
  destruct (chat_of s (body_id body)) as [c|];
    (destruct (fetch_outcome e) as [|res] eqn:Hf;
     [ exists (Return (ErrorResponse offline_chat)), [];
       split; [|split; reflexivity];
       run_handler; unfold bind; rewrite Hf; cbn;
       rewrite ?app_nil_r, <- ?app_assoc; reflexivity
     | destruct (persist_fails e) eqn:Hp;
       eexists; eexists; (split; [|split; reflexivity]);
       run_handler; unfold bind; rewrite Hf; cbn [fst snd];
       rewrite proxy_execute_run; cbn;
       rewrite ?map_map, ?app_nil_r, <- ?app_assoc; reflexivity ]).
Qed.

(** X17. In the proxying draft a transport error of the call to the
    workflow is answered with the error [offline:chat], and by then the
    writes are done: the chat is created if it was missing, the user's
    message is stored, and the call was attempted once; nothing is
    written to a stream. *)
Theorem proxy_transport_error_is_offline
    (tbl : UserType -> Entitlements) (e : Env)
    (body_stream : option Proxy.BodyStream) (s : St)
    (body : PostRequestBody) (user : User) (webhookUrl : string) :
  passes_guards tbl e s body user ->
  configured (N8N_WEBHOOK_URL e) = Some webhookUrl ->
  fetch_outcome e = FetchThrows ->
  fst (Proxy.POST tbl e body_stream s) = Return (ErrorResponse offline_chat)
  /\ events_of (Proxy.POST tbl e body_stream) s
     = map EvSaveChat (proxy_created_chats s body user)
       ++ [EvSaveMessages [user_row e body];
           EvFetch (proxy_request e s body user webhookUrl)]
  /\ messages (snd (Proxy.POST tbl e body_stream s)) = messages s ++ [user_row e body].
Proof.
  intros Hg Hurl Hf.
  destruct (proxy_POST_admitted body_stream Hg Hurl) as [out [tail [Hrun Hcase]]].
  rewrite Hf in Hcase. destruct Hcase as [-> ->]. rewrite Hrun. repeat split.
  - apply events_of_trace. rewrite Hrun. cbn. rewrite ?app_nil_r. reflexivity.
  - cbn. rewrite ?app_nil_r. reflexivity.
Qed.

(** X17 at the first message of a conversation. *)
Lemma proxy_transport_error_is_offline_witness :
  fst (Proxy.POST sample_table (first_post hi FetchThrows) None empty_store)
  = Return (ErrorResponse offline_chat)
  /\ events_of (Proxy.POST sample_table (first_post hi FetchThrows) None) empty_store
     = map EvSaveChat (proxy_created_chats empty_store (sample_body hi) alice)
       ++ [EvSaveMessages [user_row (first_post hi FetchThrows) (sample_body hi)];
           EvFetch (proxy_request (first_post hi FetchThrows) empty_store
                      (sample_body hi) alice "https://n8n.example/webhook")]
  /\ messages (snd (Proxy.POST sample_table (first_post hi FetchThrows) None empty_store))
     = messages empty_store ++ [user_row (first_post hi FetchThrows) (sample_body hi)].
Proof.
  apply (@proxy_transport_error_is_offline sample_table (first_post hi FetchThrows)
           None empty_store (sample_body hi) alice "https://n8n.example/webhook"
           (first_post_passes_guards hi FetchThrows)); reflexivity.
Defined.

Lemma filter_fetch_delta_writes (id : string) (texts : list jstr) :
  filter is_fetch (delta_writes id texts) = [].
Proof. induction texts; cbn; auto. Qed.

Lemma filter_fetch_save_chats (cs : list Chat) : filter is_fetch (map EvSaveChat cs) = [].
Proof. induction cs; cbn; auto. Qed.

(** X18. The proxying draft, which reads the history before it writes
    the user's row, makes one call to the workflow whatever its outcome,
    and the history of that call is the stored messages of the
    conversation followed by the new message: a message whose id is not
    yet in the store occurs in it exactly once. *)
Theorem proxy_forwards_new_message_once
    (tbl : UserType -> Entitlements) (e : Env)
    (body_stream : option Proxy.BodyStream) (s : St)
    (body : PostRequestBody) (user : User) (webhookUrl : string) :
  passes_guards tbl e s body user ->
  configured (N8N_WEBHOOK_URL e) = Some webhookUrl ->
  (forall m, In m (messages s) -> message_id m <> msg_id (body_message body)) ->
  exists rq,
    filter is_fetch (events_of (Proxy.POST tbl e body_stream) s) = [EvFetch rq]
    /\ p_history (payload rq)
       = convertToUIMessages (messages_of_chat (body_id body) (messages s))
         ++ [body_message body]
    /\ occurrences (msg_id (body_message body)) (p_history (payload rq)) = 1%nat.
Proof.
  intros Hg Hurl Hfresh.
  destruct (proxy_POST_admitted body_stream Hg Hurl) as [out [tail [Hrun Hcase]]].
  exists (proxy_request e s body user webhookUrl). repeat split.
  - erewrite events_of_trace by (rewrite Hrun; reflexivity).
    rewrite !filter_app, filter_fetch_save_chats. cbn [filter is_fetch app].
    destruct (fetch_outcome e) as [|res].
    + destruct Hcase as [_ ->]. reflexivity.
    + destruct Hcase as [_ ->]. destruct (persist_fails e); cbn [map fst List.concat];
        rewrite ?app_nil_r, !filter_app, filter_fetch_delta_writes, filter_fetch_finalizer;
        reflexivity.
  - exact (draft_history_occurrences s body Hfresh).
Qed.

(** X18 at the first message of a conversation. *)
Lemma proxy_forwards_new_message_once_witness :
  exists rq,
    filter is_fetch
      (events_of (Proxy.POST sample_table (first_post hi (FetchResponds hello_text))
                    (Some three_chunks)) empty_store)
    = [EvFetch rq]
    /\ p_history (payload rq)
       = convertToUIMessages (messages_of_chat "c1" (messages empty_store)) ++ [hi]
    /\ occurrences "m1" (p_history (payload rq)) = 1%nat.
Proof.
  apply (@proxy_forwards_new_message_once sample_table
           (first_post hi (FetchResponds hello_text)) (Some three_chunks) empty_store
           (sample_body hi) alice "https://n8n.example/webhook"
           (first_post_passes_guards hi (FetchResponds hello_text)) eq_refl).
  intros m Hin. destruct Hin.
Defined.

(** X19. When the workflow responds, with whatever status, the proxying
    draft answers with the stream, and the text deltas it writes to the
    writer are: the body text when the response has no body stream (the
    fixed error text when reading it fails); otherwise the chunks of the
    body in the order read, followed by the fixed error text
    [There was an error connecting to the assistant.] when a read fails.
    The status is not looked at: the body of an error answer of the
    workflow is written as the reply. *)
Theorem proxy_streams_the_body
    (tbl : UserType -> Entitlements) (e : Env)
    (body_stream : option Proxy.BodyStream) (s : St)
    (body : PostRequestBody) (user : User) (webhookUrl : string)
    (res : WorkflowResponse) :
  passes_guards tbl e s body user ->
  configured (N8N_WEBHOOK_URL e) = Some webhookUrl ->
  fetch_outcome e = FetchResponds res ->
  fst (Proxy.POST tbl e body_stream s) = Return StreamResponse
  /\ deltas (events_of (Proxy.POST tbl e body_stream) s)
     = match body_stream with
       | None =>
           match res_text res with
           | Some text => [text]
           | None =>
               [[84; 104; 101; 114; 101; 32; 119; 97; 115; 32; 97; 110; 32;
                101; 114; 114; 111; 114; 32; 99; 111; 110; 110; 101; 99; 116;
                105; 110; 103; 32; 116; 111; 32; 116; 104; 101; 32; 97; 115;
                115; 105; 115; 116; 97; 110; 116; 46]%N]
           end
       | Some stream =>
           Proxy.chunks stream
           ++ (if Proxy.read_fails stream
               then [[84; 104; 101; 114; 101; 32; 119; 97; 115; 32; 97; 110;
                     32; 101; 114; 114; 111; 114; 32; 99; 111; 110; 110; 101;
                     99; 116; 105; 110; 103; 32; 116; 111; 32; 116; 104; 101;
                     32; 97; 115; 115; 105; 115; 116; 97; 110; 116; 46]%N]
               else [])
       end.
Proof.
  intros Hg Hurl Hf.
  destruct (proxy_POST_admitted body_stream Hg Hurl) as [out [tail [Hrun Hcase]]].
  rewrite Hf in Hcase. destruct Hcase as [-> ->]. rewrite Hrun.
  split; [reflexivity|].
  erewrite events_of_trace by (rewrite Hrun; reflexivity).
  assert (Hsaved : deltas (map EvSaveChat (proxy_created_chats s body user)) = []).
  { unfold proxy_created_chats. destruct (chat_of s (body_id body)); reflexivity. }
  assert (Htexts : proxied_texts res body_stream
                   = match body_stream with
                     | None =>
                         match res_text res with
                         | Some text => [text]
                         | None => [Proxy.connection_error]
                         end
                     | Some stream =>
                         Proxy.chunks stream
                         ++ (if Proxy.read_fails stream
                             then [Proxy.connection_error] else [])
                     end) by reflexivity.
  destruct (persist_fails e); cbn [map fst List.concat];
    rewrite ?app_nil_r, !deltas_app, Hsaved, ?deltas_delta_writes,
      ?deltas_finalizer_calls, Htexts; cbn [app deltas];
    rewrite ?app_nil_r; reflexivity.
Qed.

(** X19 at a 503 whose body arrives in the three chunks [Hel], [lo ] and
    [there]. *)
Lemma proxy_streams_the_body_witness :
  fst (Proxy.POST sample_table (first_post hi (FetchResponds unavailable))
         (Some three_chunks) empty_store)
  = Return StreamResponse
  /\ deltas (events_of (Proxy.POST sample_table (first_post hi (FetchResponds unavailable))
                          (Some three_chunks)) empty_store)
     = [[72; 101; 108]%N; [108; 111; 32]%N; [116; 104; 101; 114; 101]%N].
Proof.
  exact (@proxy_streams_the_body sample_table (first_post hi (FetchResponds unavailable))
           (Some three_chunks) empty_store (sample_body hi) alice
           "https://n8n.example/webhook" unavailable
           (first_post_passes_guards hi (FetchResponds unavailable)) eq_refl eq_refl).
Defined.

(** ** The further properties at sample requests *)

Lemma unconfigured_post_passes_guards (m : ChatMessage) (f : FetchOutcome) :
  passes_guards sample_table (without_endpoint (first_post m f)) empty_store
    (sample_body m) alice.
Proof.
  repeat split; try reflexivity.
  - cbn. lia.
  - intros c Hc. discriminate.
Defined.

Lemma failing_persist_passes_guards (m : ChatMessage) (f : FetchOutcome) :
  passes_guards sample_table (with_failing_persist (first_post m f)) empty_store
    (sample_body m) alice.
Proof.
  repeat split; try reflexivity.
  - cbn. lia.
  - intros c Hc. discriminate.
Defined.

(** X2 at the first message of a conversation, without the endpoint. *)
Lemma POST_offline_after_writes_witness :
  fst (POST sample_table (without_endpoint (first_post hi FetchThrows)) empty_store)
  = Return (ErrorResponse offline_chat)
  /\ events_of (POST sample_table (without_endpoint (first_post hi FetchThrows))) empty_store
     = map EvSaveChat (created_chats empty_store (sample_body hi) alice)
       ++ [EvSaveMessages
             [user_row (without_endpoint (first_post hi FetchThrows)) (sample_body hi)]]
  /\ messages (snd (POST sample_table (without_endpoint (first_post hi FetchThrows))
                      empty_store))
     = messages empty_store
       ++ [user_row (without_endpoint (first_post hi FetchThrows)) (sample_body hi)]
  /\ chats (snd (POST sample_table (without_endpoint (first_post hi FetchThrows))
                   empty_store))
     = chats empty_store ++ created_chats empty_store (sample_body hi) alice.
Proof.
  apply (@POST_offline_after_writes sample_table
           (without_endpoint (first_post hi FetchThrows)) empty_store (sample_body hi)
           alice (unconfigured_post_passes_guards hi FetchThrows)).
  reflexivity.
Defined.

(** X3 at the first message of a conversation. *)
Lemma POST_calls_webhook_once_witness :
  exists rq,
    filter is_fetch
      (events_of (POST sample_table (first_post hi (FetchResponds answer_42))) empty_store)
    = [EvFetch rq]
    /\ url rq = "https://n8n.example/webhook"
    /\ authorization rq
       = option_map (String.append "Bearer ")
           (configured (N8N_WEBHOOK_TOKEN (first_post hi (FetchResponds answer_42))))
    /\ p_chatId (payload rq) = body_id (sample_body hi)
    /\ p_model (payload rq) = selectedChatModel (sample_body hi)
    /\ p_message (payload rq) = body_message (sample_body hi)
    /\ p_user (payload rq) = alice.
Proof.
  apply (@POST_calls_webhook_once sample_table (first_post hi (FetchResponds answer_42))
           empty_store (sample_body hi) alice "https://n8n.example/webhook"
           (first_post_passes_guards hi (FetchResponds answer_42))).
  reflexivity.
Defined.

(** X4 at a request for a conversation of somebody else. *)
Lemma POST_without_stream_makes_no_call_witness :
  Forall (fun ev => match ev with
                    | EvFetch _ | EvWrite _ | EvEnd | EvClose | EvFinish => False
                    | _ => True
                    end)
         (events_of (POST sample_table (first_post hi FetchThrows)) bobs_store).
Proof.
  apply (@POST_without_stream_makes_no_call sample_table (first_post hi FetchThrows)
           bobs_store).
  cbn. discriminate.
Defined.


(** X6 at a request of alice in her own conversation. *)
Lemma POST_preserves_existing_chats_witness :
  chat_of (snd (POST sample_table (first_post hi FetchThrows) shared_store)) "c2"
  = Some {| chat_id := "c2"; userId := "bob"; title := u "Bob"; visibility := Public |}
  /\ (forall body,
        request_body (first_post hi FetchThrows) = Some body -> body_id body = "c2" ->
        chats (snd (POST sample_table (first_post hi FetchThrows) shared_store))
        = chats shared_store).
Proof.
  apply (@POST_preserves_existing_chats sample_table (first_post hi FetchThrows)
           shared_store "c2").
  reflexivity.
Defined.

(** X7 at a request whose stream messages cannot be written. *)
Lemma POST_persists_the_reply_witness :
  exists t,
    deltas (events_of
              (POST sample_table
                 (with_failing_persist (first_post hi (FetchResponds answer_42))))
              empty_store)
    = [t]
    /\ t <> []
    /\ messages (snd (POST sample_table
                        (with_failing_persist (first_post hi (FetchResponds answer_42)))
                        empty_store))
       = messages empty_store
         ++ user_row (with_failing_persist (first_post hi (FetchResponds answer_42)))
              (sample_body hi)
            :: [{| chatId := "c1"; message_id := "uuid-2"; role := RAssistant;
                   parts := [JObj [([116; 121; 112; 101]%N, JStr [116; 101; 120; 116]%N);
                                   ([116; 101; 120; 116]%N, JStr t)]];
                   attachments := []; createdAt := 1700000000000 |}].
Proof.
  exact (@POST_persists_the_reply sample_table
           (with_failing_persist (first_post hi (FetchResponds answer_42)))
           empty_store (sample_body hi) alice "https://n8n.example/webhook"
           (failing_persist_passes_guards hi (FetchResponds answer_42)) eq_refl).
Defined.

(** The proxying draft on a body whose read fails after a chunk. *)
Example proxy_broken_stream :
  deltas (events_of
            (Proxy.execute (first_post hi (FetchResponds hello_text)) hello_text
               (Some broken_stream))
            empty_store)
  = [u "Hel"; Proxy.connection_error].
Proof. reflexivity. Qed.
